(** * WiFi speed monitor: a shallow embedding of [wifi-monitor.py]

    The development follows the class [WiFiMonitor] method by method.

    Numbers.  Speeds are Python floats.  They are taken here as exact
    rationals ([Q]); the one non-finite float the program writes,
    [float('inf')], is a constructor of [speedval], and the "not a number"
    that pandas uses for an undefined statistic is [None] in an [option Q].
    Rounding of float arithmetic is not modelled.  [datetime] and
    [timedelta] are exact in Python (integer microseconds) and are [Z] here;
    Python bounds both (years 1 to 9999), the model does not.

    Effects.  The wall clock, the reachability probe and the speed test live
    in a [world]: a clock and two scripts of probe answers.  The clock moves
    only while a probe runs or the program sleeps, and never backwards.  A
    method that needs an answer from an empty script returns [Starved]; a
    Python exception that escapes a method is [Raise].  Logging and the
    writing of the report file are left out. *)

From Stdlib Require Import ZArith QArith Lqa Lia List Bool.
From stdpp Require Import gmap list sorting.
Import ListNotations.

Local Open Scope Z_scope.

(** ** Outcomes of a call *)

Inductive exn : Type :=
| StatisticsError   (* statistics.mean of no data *)
| ValueError.       (* idxmax / idxmin of an empty Series *)

Inductive outcome (A : Type) : Type :=
| Ok (a : A)
| Raise (e : exn)
| Starved.

Arguments Ok {A} a.
Arguments Raise {A} e.
Arguments Starved {A}.

#[global] Instance outcome_ret : MRet outcome := fun A a => Ok a.

#[global] Instance outcome_bind : MBind outcome := fun A B k m =>
  match m with
  | Ok a => k a
  | Raise e => Raise e
  | Starved => Starved
  end.

(** ** Time *)

Definition datetime := Z.   (* microseconds, naive local time *)
Definition timedelta := Z.  (* microseconds *)

Definition seconds (n : Z) : timedelta := n * 1000000.
Definition hours (n : Z) : timedelta := n * 3600000000.

(** [datetime.hour] *)
Definition hour_of (t : datetime) : Z := (t / 3600000000) mod 24.

(** ** Speeds *)

(** A stored extreme is a float that is finite or [float('inf')]. *)
Inductive speedval : Type :=
| Finite (q : Q)
| Infinity.

Definition Qltb (x y : Q) : bool :=
  (Qnum x * Zpos (Qden y) <? Qnum y * Zpos (Qden x)).

(** [a < b] on floats without NaN. *)
Definition sv_ltb (a b : speedval) : bool :=
  match a, b with
  | Finite x, Finite y => Qltb x y
  | Finite _, Infinity => true
  | Infinity, _ => false
  end.

Definition sv_le (a b : speedval) : Prop :=
  match a, b with
  | Finite x, Finite y => (x <= y)%Q
  | _, Infinity => True
  | Infinity, Finite _ => False
  end.

(** [a == b] on floats without NaN. *)
Definition sv_eq (a b : speedval) : Prop :=
  match a, b with
  | Finite x, Finite y => (x == y)%Q
  | Infinity, Infinity => True
  | _, _ => False
  end.

(** ** Data model *)

(** An entry of [self.speeds]. *)
Record sample : Type := Sample {
  timestamp : datetime;
  hour : Z;
  download : Q;
  upload : Q
}.

(** An entry of [self.disconnections]. *)
Record disconnection : Type := Disconnection {
  d_start : datetime;
  d_end : datetime;
  d_duration : timedelta
}.

(** A value of [self.speed_extremes]: [{'speed': _, 'timestamp': _}]. *)
Record extreme : Type := Extreme {
  speed : speedval;
  e_timestamp : option datetime
}.

Record speed_extremes_t : Type := SpeedExtremes {
  max_download : extreme;
  min_download : extreme;
  max_upload : extreme;
  min_upload : extreme
}.

(** A value of [self.hourly_averages]. *)
Record hourly_average : Type := HourlyAverage {
  avg_download : Q;
  avg_upload : Q;
  samples : nat
}.

(** The fields of [self]. *)
Record WiFiMonitor : Type := Monitor {
  speeds : list sample;
  disconnections : list disconnection;
  hourly_averages : gmap Z hourly_average;
  current_hour : Z;
  speed_extremes : speed_extremes_t
}.

Definition set_speeds (self : WiFiMonitor) (l : list sample) : WiFiMonitor :=
  Monitor l (disconnections self) (hourly_averages self) (current_hour self)
          (speed_extremes self).

Definition set_disconnections (self : WiFiMonitor) (l : list disconnection)
  : WiFiMonitor :=
  Monitor (speeds self) l (hourly_averages self) (current_hour self)
          (speed_extremes self).

Definition set_hourly_averages (self : WiFiMonitor)
    (m : gmap Z hourly_average) : WiFiMonitor :=
  Monitor (speeds self) (disconnections self) m (current_hour self)
          (speed_extremes self).

Definition set_current_hour (self : WiFiMonitor) (h : Z) : WiFiMonitor :=
  Monitor (speeds self) (disconnections self) (hourly_averages self) h
          (speed_extremes self).

Definition set_speed_extremes (self : WiFiMonitor) (e : speed_extremes_t)
  : WiFiMonitor :=
  Monitor (speeds self) (disconnections self) (hourly_averages self)
          (current_hour self) e.

(** ** [__init__] *)

Definition initial_extremes : speed_extremes_t :=
  {| max_download := Extreme (Finite 0) None;
     min_download := Extreme Infinity None;
     max_upload := Extreme (Finite 0) None;
     min_upload := Extreme Infinity None |}.

(** [now] is the reading of [datetime.now()] in the constructor. *)
Definition init (now : datetime) : WiFiMonitor :=
  {| speeds := [];
     disconnections := [];
     hourly_averages := ∅;
     current_hour := hour_of now;
     speed_extremes := initial_extremes |}.

(** ** [update_speed_extremes]

    [current_time] is the reading of [datetime.now()] on entry. *)
Definition update_speed_extremes (self : WiFiMonitor) (current_time : datetime)
    (download_speed upload_speed : Q) : WiFiMonitor :=
  let e := speed_extremes self in
  let max_d :=
    if sv_ltb (speed (max_download e)) (Finite download_speed)
    then Extreme (Finite download_speed) (Some current_time)
    else max_download e in
  let min_d :=
    if sv_ltb (Finite download_speed) (speed (min_download e))
    then Extreme (Finite download_speed) (Some current_time)
    else min_download e in
  let max_u :=
    if sv_ltb (speed (max_upload e)) (Finite upload_speed)
    then Extreme (Finite upload_speed) (Some current_time)
    else max_upload e in
  let min_u :=
    if sv_ltb (Finite upload_speed) (speed (min_upload e))
    then Extreme (Finite upload_speed) (Some current_time)
    else min_upload e in
  set_speed_extremes self (SpeedExtremes max_d min_d max_u min_u).

(** ** The world outside the program *)

(** [reachable_script]: for each call of [check_connection], the time it takes
    (microseconds) and whether the socket opened.  [speedtest_script]: for
    each speed test, the time it takes and either the measured bits per
    second (download, upload) or [None] when the test throws. *)
Record world : Type := World {
  clock : datetime;
  reachable_script : list (N * bool);
  speedtest_script : list (N * option (Q * Q))
}.

Definition advance (w : world) (dt : timedelta) : world :=
  World (clock w + dt) (reachable_script w) (speedtest_script w).

(** [time.sleep(n)] *)
Definition sleep (n : Z) (w : world) : world := advance w (seconds n).

(** ** [check_connection] *)
Definition check_connection (w : world) : outcome (bool * world) :=
  match reachable_script w with
  | [] => Starved
  | (dt, up) :: rest =>
      Ok (up, World (clock w + Z.of_N dt) rest (speedtest_script w))
  end.

(** ** [measure_speed]

    The [try] block either runs to its end, extremes updated, or throws
    before [update_speed_extremes] is reached; the handler returns
    [(None, None)]. *)
Definition measure_speed (self : WiFiMonitor) (w : world)
  : outcome (option Q * option Q * WiFiMonitor * world) :=
  match speedtest_script w with
  | [] => Starved
  | (dt, r) :: rest =>
      let w' := World (clock w + Z.of_N dt) (reachable_script w) rest in
      match r with
      | Some (down_bps, up_bps) =>
          let download_speed := (down_bps / 1000000)%Q in
          let upload_speed := (up_bps / 1000000)%Q in
          let self' :=
            update_speed_extremes self (clock w') download_speed upload_speed in
          Ok (Some download_speed, Some upload_speed, self', w')
      | None => Ok (None, None, self, w')
      end
  end.

(** ** [track_disconnection] *)

(** The polling loop [while not self.check_connection(): time.sleep(5)]:
    the world in which [check_connection] first answers [True]. *)
Fixpoint await_connection (script : list (N * bool)) (now : datetime)
  : option (datetime * list (N * bool)) :=
  match script with
  | [] => None
  | (dt, up) :: rest =>
      let now' := now + Z.of_N dt in
      if up then Some (now', rest)
      else await_connection rest (now' + seconds 5)
  end.

Definition track_disconnection (self : WiFiMonitor) (start_time : datetime)
    (w : world) : outcome (WiFiMonitor * world) :=
  match await_connection (reachable_script w) (clock w) with
  | None => Starved
  | Some (end_time, rest) =>
      let duration := end_time - start_time in
      Ok (set_disconnections self
            (disconnections self ++
               [Disconnection start_time end_time duration]),
          World end_time rest (speedtest_script w))
  end.

(** ** [calculate_total_downtime] *)
Definition calculate_total_downtime (self : WiFiMonitor) : timedelta :=
  fold_left (fun total_duration d => total_duration + d_duration d)
            (disconnections self) 0.

(** ** [calculate_hourly_average] *)

Definition Qsum (l : list Q) : Q := fold_right Qplus 0%Q l.

Definition Qlen {A : Type} (l : list A) : Q := inject_Z (Z.of_nat (length l)).

(** [statistics.mean] *)
Definition mean (data : list Q) : outcome Q :=
  match data with
  | [] => Raise StatisticsError
  | _ => Ok (Qsum data / Qlen data)%Q
  end.

Definition calculate_hourly_average (self : WiFiMonitor) : outcome WiFiMonitor :=
  match speeds self with
  | [] => Ok self
  | _ =>
      let hour_speeds :=
        filter (fun speed => hour speed = current_hour self) (speeds self) in
      match hour_speeds with
      | [] => Ok self
      | _ =>
          let download_speeds := map download hour_speeds in
          let upload_speeds := map upload hour_speeds in
          d ← mean download_speeds;
          u ← mean upload_speeds;
          Ok (set_hourly_averages self
                (<[current_hour self :=
                     HourlyAverage d u (length hour_speeds)]>
                   (hourly_averages self)))
      end
  end.

(** ** [analyze_patterns]

    The pandas operations the method calls, on the data it gives them:
    - [groupby(key)]: one group per distinct key, keys in ascending order;
    - ['mean'] of a group: the sum over the count;
    - ['std'] of a group: the sample standard deviation (divisor [n - 1]),
      NaN for a group of one;
    - [idxmax] / [idxmin] of a Series: the label of the first largest /
      smallest value, [ValueError] on an empty Series;
    - [Series.mean]: NaN entries are skipped; NaN when nothing is left. *)

Record by_direction (A : Type) : Type := ByDirection {
  of_download : A;
  of_upload : A
}.
Arguments ByDirection {A}.
Arguments of_download {A}.
Arguments of_upload {A}.

(** One row of [hourly_patterns]; [None] is NaN. *)
Record pattern_row : Type := PatternRow {
  download_mean : Q;
  download_std : option Q;
  upload_mean : Q;
  upload_std : option Q
}.

Record patterns_t : Type := Patterns {
  peak_hours : by_direction Z;
  low_hours : by_direction Z;
  stability : by_direction (option Q);
  hourly_patterns : list (Z * pattern_row)
}.

Definition group_keys (l : list sample) : list Z :=
  merge_sort Z.le (remove_dups (map (fun s => hour_of (timestamp s)) l)).

Definition group (l : list sample) (k : Z) : list sample :=
  filter (fun s => hour_of (timestamp s) = k) l.

Definition group_mean (xs : list Q) : Q := (Qsum xs / Qlen xs)%Q.

Fixpoint idx_from (better : Q -> Q -> bool) (best : Z * Q)
    (rows : list (Z * Q)) : Z :=
  match rows with
  | [] => fst best
  | r :: rest =>
      if better (snd r) (snd best) then idx_from better r rest
      else idx_from better best rest
  end.

Definition idx_first (better : Q -> Q -> bool) (rows : list (Z * Q))
  : outcome Z :=
  match rows with
  | [] => Raise ValueError
  | r :: rest => Ok (idx_from better r rest)
  end.

Definition idxmax : list (Z * Q) -> outcome Z :=
  idx_first (fun x best => Qltb best x).

Definition idxmin : list (Z * Q) -> outcome Z :=
  idx_first (fun x best => Qltb x best).

Definition series_mean (col : list (option Q)) : option Q :=
  match omap id col with
  | [] => None
  | vals => Some (Qsum vals / Qlen vals)%Q
  end.

Section Analysis.

(** The square root behind ['std']. *)
Variable sqrt : Q -> Q.

Definition group_std (xs : list Q) : option Q :=
  if (length xs <? 2)%nat then None
  else
    let m := group_mean xs in
    Some (sqrt (Qsum (map (fun x => (x - m) * (x - m)) xs)
                  / (Qlen xs - 1)))%Q.

Definition agg (l : list sample) : list (Z * pattern_row) :=
  map (fun k =>
         let g := group l k in
         (k, PatternRow (group_mean (map download g))
                        (group_std (map download g))
                        (group_mean (map upload g))
                        (group_std (map upload g))))
      (group_keys l).

Definition column {A : Type} (f : pattern_row -> A)
    (rows : list (Z * pattern_row)) : list (Z * A) :=
  map (fun r => (fst r, f (snd r))) rows.

Definition analyze_patterns (self : WiFiMonitor) : outcome (option patterns_t) :=
  match speeds self with
  | [] => Ok None
  | _ =>
      let hourly_patterns := agg (speeds self) in
      peak_d ← idxmax (column download_mean hourly_patterns);
      peak_u ← idxmax (column upload_mean hourly_patterns);
      low_d ← idxmin (column download_mean hourly_patterns);
      low_u ← idxmin (column upload_mean hourly_patterns);
      let stability :=
        ByDirection
          (series_mean (map snd (column download_std hourly_patterns)))
          (series_mean (map snd (column upload_std hourly_patterns))) in
      Ok (Some (Patterns (ByDirection peak_d peak_u)
                         (ByDirection low_d low_u)
                         stability hourly_patterns))
  end.

End Analysis.

(** A square root for running the model: the largest fraction over the
    argument's denominator whose square does not exceed it.  It is exact on
    [n # d] whenever [n * d] is a perfect square. *)
Definition sqrt_down (q : Q) : Q := Z.sqrt (Qnum q * Zpos (Qden q)) # Qden q.

(** ** [generate_report]

    [report_content] is the list of lines; a line is kept as the data that
    is formatted into it. *)

Inductive section_title : Type :=
| WiFiMonitoringReport | SpeedExtremesTitle | ConnectionSummary
| DetailedDisconnections | SpeedPatterns | HourlySpeedAverages.

Inductive extreme_label : Type :=
| MaximumDownload | MinimumDownload | MaximumUpload | MinimumUpload.

Inductive direction : Type := Download | Upload.

Inductive line : Type :=
| Title (t : section_title)
| ReportGeneratedAt (t : datetime)
| ExtremeLine (l : extreme_label) (s : speedval) (t : option datetime)
| TotalDisconnectionTime (t : timedelta)
| NumberOfDisconnections (n : nat)
| DisconnectedAt (t : datetime)
| ReconnectedAt (t : datetime)
| DurationLine (t : timedelta)
| NoDisconnectionsRecorded
| PeakSpeedHour (d : direction) (h : Z)
| LowestSpeedHour (d : direction) (h : Z)
| ConnectionStabilityHeading
| StabilityScore (d : direction) (s : option Q)
| HourHeading (h : Z)
| AverageDownload (q : Q)
| AverageUpload (q : Q)
| SamplesTaken (n : nat).

(** [sorted(self.hourly_averages.items())]: the keys are distinct, so the
    order is that of the hours. *)
Definition hour_le (a b : Z * hourly_average) : Prop := fst a <= fst b.

#[global] Instance hour_le_dec : RelDecision hour_le :=
  fun a b => decide (fst a <= fst b).

Definition sorted_items (m : gmap Z hourly_average)
  : list (Z * hourly_average) :=
  merge_sort hour_le (map_to_list m).

Definition disconnection_lines (d : disconnection) : list line :=
  [DisconnectedAt (d_start d); ReconnectedAt (d_end d);
   DurationLine (d_duration d)].

Definition hourly_lines (item : Z * hourly_average) : list line :=
  [HourHeading (fst item); AverageDownload (avg_download (snd item));
   AverageUpload (avg_upload (snd item)); SamplesTaken (samples (snd item))].

Definition generate_report (sqrt : Q -> Q) (self : WiFiMonitor)
    (now : datetime) : outcome (list line) :=
  patterns ← analyze_patterns sqrt self;
  let total_downtime := calculate_total_downtime self in
  let e := speed_extremes self in
  let header :=
    [Title WiFiMonitoringReport; ReportGeneratedAt now] in
  let extremes :=
    [Title SpeedExtremesTitle;
     ExtremeLine MaximumDownload (speed (max_download e))
                 (e_timestamp (max_download e));
     ExtremeLine MinimumDownload (speed (min_download e))
                 (e_timestamp (min_download e));
     ExtremeLine MaximumUpload (speed (max_upload e))
                 (e_timestamp (max_upload e));
     ExtremeLine MinimumUpload (speed (min_upload e))
                 (e_timestamp (min_upload e))] in
  let summary :=
    [Title ConnectionSummary;
     TotalDisconnectionTime total_downtime;
     NumberOfDisconnections (length (disconnections self))] in
  let detailed :=
    Title DetailedDisconnections ::
    match disconnections self with
    | [] => [NoDisconnectionsRecorded]
    | ds => concat (map disconnection_lines ds)
    end in
  let pattern_analysis :=
    match patterns with
    | Some p =>
        [Title SpeedPatterns;
         PeakSpeedHour Download (of_download (peak_hours p));
         PeakSpeedHour Upload (of_upload (peak_hours p));
         LowestSpeedHour Download (of_download (low_hours p));
         LowestSpeedHour Upload (of_upload (low_hours p));
         ConnectionStabilityHeading;
         StabilityScore Download (of_download (stability p));
         StabilityScore Upload (of_upload (stability p))]
    | None => []
    end in
  let hourly :=
    Title HourlySpeedAverages ::
    concat (map hourly_lines (sorted_items (hourly_averages self))) in
  Ok (header ++ extremes ++ summary ++ detailed ++ pattern_analysis ++ hourly).

(** ** [run] *)

(** Python truth value of what [measure_speed] returns: [None] and [0.0] are
    false. *)
Definition truthy (x : option Q) : bool :=
  match x with
  | Some q => negb (Qeq_bool q 0)
  | None => false
  end.

(** The body of the [while] loop. *)
Definition iteration (sw : WiFiMonitor * world) : outcome (WiFiMonitor * world) :=
  let '(self, w) := sw in
  let current_time := clock w in
  self ← (if decide (hour_of current_time = current_hour self) then Ok self
          else
            self' ← calculate_hourly_average self;
            Ok (set_current_hour self' (hour_of current_time)));
  '(connected, w) ← check_connection w;
  if negb connected then
    let disconnect_time := clock w in
    track_disconnection self disconnect_time w
  else
    '(download_speed, upload_speed, self, w) ← measure_speed self w;
    let self :=
      if truthy download_speed && truthy upload_speed then
        match download_speed, upload_speed with
        | Some d, Some u =>
            set_speeds self
              (speeds self ++
                 [Sample current_time (hour_of current_time) d u])
        | _, _ => self
        end
      else self in
    Ok (self, sleep 60 w).

(** [while datetime.now() < end_time: ...], at most [fuel] iterations. *)
Fixpoint loop (fuel : nat) (end_time : datetime) (sw : WiFiMonitor * world)
  : outcome (WiFiMonitor * world) :=
  if decide (clock (snd sw) < end_time) then
    match fuel with
    | O => Starved
    | S fuel' => sw' ← iteration sw; loop fuel' end_time sw'
    end
  else Ok sw.

(** [duration] is [timedelta(hours=duration_hours)]. *)
Definition run (sqrt : Q -> Q) (fuel : nat) (duration : timedelta)
    (sw : WiFiMonitor * world)
  : outcome (list line * WiFiMonitor * world) :=
  let start_time := clock (snd sw) in
  let end_time := start_time + duration in
  '(self, w) ← loop fuel end_time sw;
  self ← calculate_hourly_average self;
  report ← generate_report sqrt self (clock w);
  Ok (report, self, w).

(** * Vocabulary of the statements *)

(** One successful speed test as [update_speed_extremes] receives it: the
    clock reading on entry and the two speeds. *)
Record measurement : Type := Measurement {
  m_time : datetime;
  m_download : Q;
  m_upload : Q
}.

(** The extremes after a sequence of measurements. *)
Definition feed (self : WiFiMonitor) (ms : list measurement) : WiFiMonitor :=
  fold_left
    (fun s m => update_speed_extremes s (m_time m) (m_download m) (m_upload m))
    ms self.

(** What one [if] of [update_speed_extremes] does to one extreme. *)
Definition raise (e : extreme) (m : datetime * Q) : extreme :=
  if sv_ltb (speed e) (Finite (snd m))
  then Extreme (Finite (snd m)) (Some (fst m)) else e.

Definition lower (e : extreme) (m : datetime * Q) : extreme :=
  if sv_ltb (Finite (snd m)) (speed e)
  then Extreme (Finite (snd m)) (Some (fst m)) else e.

Definition downloads (ms : list measurement) : list (datetime * Q) :=
  map (fun m => (m_time m, m_download m)) ms.

Definition uploads (ms : list measurement) : list (datetime * Q) :=
  map (fun m => (m_time m, m_upload m)) ms.

(** The states the program passes through: the constructor's state, then
    any number of loop iterations and hourly finalisations. *)
Inductive reachable : WiFiMonitor * world -> Prop :=
| reach_init (now : datetime) (w : world) : reachable (init now, w)
| reach_iteration (sw sw' : WiFiMonitor * world) :
    reachable sw -> iteration sw = Ok sw' -> reachable sw'
| reach_finalize (self self' : WiFiMonitor) (w : world) :
    reachable (self, w) -> calculate_hourly_average self = Ok self' ->
    reachable (self', w).

(** A disconnection record is coherent. *)
Definition event_ok (d : disconnection) : Prop :=
  d_duration d = d_end d - d_start d /\ d_start d <= d_end d.

(** The hour stored in a sample is the hour of its timestamp. *)
Definition sample_ok (s : sample) : Prop := hour s = hour_of (timestamp s).

(** Every hour present in the map has at least one sample. *)
Definition counts_positive (m : gmap Z hourly_average) : Prop :=
  forall (h : Z) (a : hourly_average), m !! h = Some a -> (1 <= samples a)%nat.

Definition Zsum (l : list Z) : Z := fold_right Z.add 0 l.

(** [n] turns of the loop, whatever the clock says. *)
Fixpoint iterations (n : nat) (sw : WiFiMonitor * world)
  : outcome (WiFiMonitor * world) :=
  match n with
  | O => Ok sw
  | S n' => sw' ← iteration sw; iterations n' sw'
  end.

(** ** Worlds for the scenarios *)

Definition usec (n : Z) : N := Z.to_N (seconds n).

(** Connectivity is lost at 10:00:00 and found again 42 seconds later: the
    loop's probe fails, then six polls of two seconds each fail, five seconds
    apart, and the seventh answers at once. *)
Definition outage_world : world :=
  World (hours 10)
        ((0%N, false) :: repeat (usec 2, false) 6 ++ [(0%N, true)])
        [].

Definition after_outage : WiFiMonitor * world :=
  (set_disconnections (init (hours 10))
     [Disconnection (hours 10) (hours 10 + seconds 42) (seconds 42)],
   World (hours 10 + seconds 42) [] []).

(** The speed test reports a download of exactly zero: connectivity is up,
    the test takes ten seconds and measures 0 and 5 Mbit/s. *)
Definition zero_download_world : world :=
  World (hours 10) [(0%N, true)] [(usec 10, Some (0%Q, 5000000%Q))].

Definition after_zero_download : WiFiMonitor * world :=
  (set_speed_extremes (init (hours 10))
     {| max_download := Extreme (Finite 0) None;
        min_download :=
          Extreme (Finite (0 / 1000000)) (Some (hours 10 + seconds 10));
        max_upload :=
          Extreme (Finite (5000000 / 1000000)) (Some (hours 10 + seconds 10));
        min_upload :=
          Extreme (Finite (5000000 / 1000000)) (Some (hours 10 + seconds 10)) |},
   World (hours 10 + seconds 70) [] []).

(** Every speed test throws while connectivity stays up. *)
Definition total_data_loss (w : world) : Prop :=
  Forall (fun c => snd c = true) (reachable_script w) /\
  Forall (fun r => snd r = None) (speedtest_script w).

(** Nothing was ever recorded. *)
Definition pristine (self : WiFiMonitor) : Prop :=
  speeds self = [] /\ disconnections self = [] /\
  hourly_averages self = ∅ /\ speed_extremes self = initial_extremes.

(** The report of a monitor that recorded nothing. *)
Definition empty_report (generated_at : datetime) : list line :=
  [Title WiFiMonitoringReport; ReportGeneratedAt generated_at;
   Title SpeedExtremesTitle;
   ExtremeLine MaximumDownload (Finite 0) None;
   ExtremeLine MinimumDownload Infinity None;
   ExtremeLine MaximumUpload (Finite 0) None;
   ExtremeLine MinimumUpload Infinity None;
   Title ConnectionSummary;
   TotalDisconnectionTime 0;
   NumberOfDisconnections 0;
   Title DetailedDisconnections;
   NoDisconnectionsRecorded;
   Title HourlySpeedAverages].

(** Three minutes from 10:00:00 in which each of the three speed tests
    throws after ten seconds. *)
Definition failing_world : world :=
  World (hours 10) (repeat (0%N, true) 3) (repeat (usec 10, None) 3).

(** A log of one sample, taken at 10:00:00. *)
Definition one_sample_log : WiFiMonitor :=
  set_speeds (init (hours 10)) [Sample (hours 10) 10 50 10].

(** Three samples in hour 10, downloads 1, 4 and 7 (sample standard
    deviation 3), and a single sample in hour 11. *)
Definition lone_hour_log : WiFiMonitor :=
  set_speeds (init (hours 10))
    [Sample (hours 10) 10 1 2;
     Sample (hours 10 + seconds 60) 10 4 2;
     Sample (hours 10 + seconds 120) 10 7 2;
     Sample (hours 11) 11 4 2].

(** The run of the three-sample scenario: it starts at 10:58:30, connectivity
    is up, each speed test takes ten seconds, and the tests measure
    (50, 10), (80, 15) and (20, 5) Mbit/s.  The third turn of the loop starts
    at 11:00:50. *)
Definition scenario_start : datetime := hours 10 + seconds (58 * 60 + 30).

Definition scenario_world : world :=
  World scenario_start
        (repeat (0%N, true) 3)
        [(usec 10, Some (50000000, 10000000)%Q);
         (usec 10, Some (80000000, 15000000)%Q);
         (usec 10, Some (20000000, 5000000)%Q)].

(** A run of a little more than a day.  It starts at 10:59:00 and measures
    (50, 10).  At 11:00:10 hour 10 is finalised and connectivity is lost
    until 10:00:00 of the next day, when (80, 15) is measured.  Connectivity
    is lost again from 10:01:10 to 11:00:10, when hour 10 is finalised for
    the second time; the last speed test throws. *)
Definition day_wrap_start : datetime := hours 10 + seconds (59 * 60).

Definition day_wrap_world : world :=
  World day_wrap_start
        [(0%N, true);
         (0%N, false); (usec 82790, true);
         (0%N, true);
         (0%N, false); (usec 3540, true);
         (0%N, true)]
        [(usec 10, Some (50000000, 10000000)%Q);
         (usec 10, Some (80000000, 15000000)%Q);
         (usec 10, None)].

(** The measurements of the three-sample scenario. *)
Definition scenario_measurements : list measurement :=
  [Measurement (hours 10) 50 10; Measurement (hours 10 + seconds 70) 80 15;
   Measurement (hours 11) 20 5].

(** ** Vocabulary of the further properties *)

(** The samples of the log taken in hour [h]. *)
Definition of_hour (h : Z) (l : list sample) : list sample :=
  filter (fun s => hour s = h) l.

(** The entry that summarises the samples [hs]; none for no sample. *)
Definition entry_of (hs : list sample) : option hourly_average :=
  match hs with
  | [] => None
  | _ => Some (HourlyAverage (Qsum (map download hs) / Qlen hs)
                             (Qsum (map upload hs) / Qlen hs)
                             (length hs))
  end.

(** The hourly map summarises the whole log, hour by hour. *)
Definition summarises (self : WiFiMonitor) : Prop :=
  forall h, hourly_averages self !! h = entry_of (of_hour h (speeds self)).

(** The same, except that the current hour may lag behind the log. *)
Definition past_hours_final (self : WiFiMonitor) : Prop :=
  (forall h, h <> current_hour self ->
     hourly_averages self !! h = entry_of (of_hour h (speeds self))) /\
  (of_hour (current_hour self) (speeds self) = [] ->
   hourly_averages self !! current_hour self = None).

(** A sample lies between the recorded extremes. *)
Definition within_extremes (e : speed_extremes_t) (s : sample) : Prop :=
  sv_le (Finite (download s)) (speed (max_download e)) /\
  sv_le (speed (min_download e)) (Finite (download s)) /\
  sv_le (Finite (upload s)) (speed (max_upload e)) /\
  sv_le (speed (min_upload e)) (Finite (upload s)).

(** Both speeds of a sample are different from zero. *)
Definition nonzero_sample (s : sample) : Prop :=
  ~ (download s == 0)%Q /\ ~ (upload s == 0)%Q.

(** The time the polls of a disconnection take: each failed poll and the
    five seconds of sleep after it. *)
Definition polling_time (fails : list (N * bool)) : timedelta :=
  Zsum (map (fun c => Z.of_N (fst c) + seconds 5) fails).

(** Samples in the order they were taken. *)
Definition chronological (l : list sample) : Prop :=
  StronglySorted (fun a b => timestamp a <= timestamp b) l.

(** Outages one after the other: each ends before the next starts. *)
Definition successive (l : list disconnection) : Prop :=
  StronglySorted (fun a b => d_end a <= d_start b) l.

(** The state of the three-sample scenario after its three turns. *)
Definition scenario_state : WiFiMonitor * world :=
  match iterations 3 (init scenario_start, scenario_world) with
  | Ok sw => sw
  | _ => (init scenario_start, scenario_world)
  end.

(** The state of the run past midnight after its five turns. *)
Definition day_wrap_state : WiFiMonitor * world :=
  match iterations 5 (init day_wrap_start, day_wrap_world) with
  | Ok sw => sw
  | _ => (init day_wrap_start, day_wrap_world)
  end.

(** Hour [k] has the largest value of a column of [hourly_patterns], and
    every earlier hour a strictly smaller one. *)
Definition first_largest (value : pattern_row -> Q)
    (rows : list (Z * pattern_row)) (k : Z) : Prop :=
  exists row, (k, row) ∈ rows /\
    forall k' row', (k', row') ∈ rows ->
      (value row' <= value row)%Q /\ (k' < k -> (value row' < value row)%Q).

(** Hour [k] has the smallest value, and every earlier hour a strictly
    larger one. *)
Definition first_smallest (value : pattern_row -> Q)
    (rows : list (Z * pattern_row)) (k : Z) : Prop :=
  exists row, (k, row) ∈ rows /\
    forall k' row', (k', row') ∈ rows ->
      (value row <= value row')%Q /\ (k' < k -> (value row < value row')%Q).

(** The patterns of the log with a lone hour; its two hours have the same
    mean download, 4, and the same mean upload, 2. *)
Definition lone_hour_patterns : patterns_t :=
  match analyze_patterns sqrt_down lone_hour_log with
  | Ok (Some p) => p
  | _ => Patterns (ByDirection 0 0) (ByDirection 0 0) (ByDirection None None) []
  end.

(** Every entry of the hourly map is the summary of some samples of the
    log. *)
Definition entries_from_log (self : WiFiMonitor) : Prop :=
  forall h a, hourly_averages self !! h = Some a ->
    exists hs, (forall s, s ∈ hs -> s ∈ speeds self) /\ entry_of hs = Some a.

(** An hourly entry lies between the recorded extremes. *)
Definition entry_within_extremes (e : speed_extremes_t) (a : hourly_average)
  : Prop :=
  sv_le (Finite (avg_download a)) (speed (max_download e)) /\
  sv_le (speed (min_download e)) (Finite (avg_download a)) /\
  sv_le (Finite (avg_upload a)) (speed (max_upload e)) /\
  sv_le (speed (min_upload e)) (Finite (avg_upload a)).

(** The two lines of the report that tell what was recorded: the title of
    the pattern section and the line for a run without disconnections. *)
Definition is_marker (x : line) : bool :=
  match x with
  | Title SpeedPatterns | NoDisconnectionsRecorded => true
  | _ => false
  end.

(** What the run of the three-sample scenario returns, and its pattern
    analysis. *)
Definition scenario_final : list line * WiFiMonitor * world :=
  match run sqrt_down 3 (seconds 180) (init scenario_start, scenario_world) with
  | Ok r => r
  | _ => ([], init scenario_start, scenario_world)
  end.

Definition scenario_patterns : patterns_t :=
  match analyze_patterns sqrt_down (snd (fst scenario_final)) with
  | Ok (Some p) => p
  | _ => Patterns (ByDirection 0 0) (ByDirection 0 0) (ByDirection None None) []
  end.

(** The report of a monitor with an empty log, no disconnection and an
    empty hourly map, whatever its extremes [e]. *)
Definition quiet_report (e : speed_extremes_t) (generated_at : datetime)
  : list line :=
  [Title WiFiMonitoringReport; ReportGeneratedAt generated_at;
   Title SpeedExtremesTitle;
   ExtremeLine MaximumDownload (speed (max_download e))
               (e_timestamp (max_download e));
   ExtremeLine MinimumDownload (speed (min_download e))
               (e_timestamp (min_download e));
   ExtremeLine MaximumUpload (speed (max_upload e))
               (e_timestamp (max_upload e));
   ExtremeLine MinimumUpload (speed (min_upload e))
               (e_timestamp (min_upload e));
   Title ConnectionSummary;
   TotalDisconnectionTime 0;
   NumberOfDisconnections 0;
   Title DetailedDisconnections;
   NoDisconnectionsRecorded;
   Title HourlySpeedAverages].

(** Closes a goal that equates a run of the model with its result. *)
Ltac run_model := vm_compute; reflexivity.

(** * Facts about the comparisons *)

Lemma Qltb_lt (x y : Q) : Qltb x y = true <-> (x < y)%Q.
Proof. unfold Qltb, Qlt. apply Z.ltb_lt. Qed.

Lemma Qltb_ge (x y : Q) : Qltb x y = false <-> (y <= x)%Q.
Proof. unfold Qltb, Qle. rewrite Z.ltb_ge. reflexivity. Qed.

Lemma sv_le_refl (a : speedval) : sv_le a a.
Proof. destruct a; simpl; [apply Qle_refl | exact I]. Qed.

Lemma sv_le_trans (a b c : speedval) : sv_le a b -> sv_le b c -> sv_le a c.
Proof.
  destruct a, b, c; simpl; try tauto.
  apply Qle_trans.
Qed.

Lemma sv_ltb_true_le (a b : speedval) : sv_ltb a b = true -> sv_le a b.
Proof.
  destruct a, b; simpl; try easy.
  intros H. apply Qltb_lt in H. apply Qlt_le_weak, H.
Qed.

Lemma sv_ltb_false_le (a b : speedval) : sv_ltb a b = false -> sv_le b a.
Proof.
  destruct a, b; simpl; try easy.
  intros H. apply Qltb_ge, H.
Qed.

Lemma sv_eq_not_ltb (a b : speedval) :
  sv_eq a b -> sv_ltb a b = false /\ sv_ltb b a = false.
Proof.
  destruct a, b; simpl; try easy.
  intros H. split; apply Qltb_ge; rewrite H; apply Qle_refl.
Qed.

(** * The extremes, one at a time *)

Lemma raise_spec (e : extreme) (m : datetime * Q) :
  sv_le (speed e) (speed (raise e m)) /\
  sv_le (Finite (snd m)) (speed (raise e m)) /\
  (raise e m = e \/ raise e m = Extreme (Finite (snd m)) (Some (fst m))).
Proof.
  unfold raise. destruct (sv_ltb (speed e) (Finite (snd m))) eqn:E; simpl.
  - split; [apply sv_ltb_true_le, E | split; [apply Qle_refl | now right]].
  - split; [apply sv_le_refl | split; [apply sv_ltb_false_le in E; exact E | now left]].
Qed.

Lemma lower_spec (e : extreme) (m : datetime * Q) :
  sv_le (speed (lower e m)) (speed e) /\
  sv_le (speed (lower e m)) (Finite (snd m)) /\
  (lower e m = e \/ lower e m = Extreme (Finite (snd m)) (Some (fst m))).
Proof.
  unfold lower. destruct (sv_ltb (Finite (snd m)) (speed e)) eqn:E; simpl.
  - split; [apply sv_ltb_true_le in E; exact E | split; [apply Qle_refl | now right]].
  - split; [apply sv_le_refl | split; [apply sv_ltb_false_le, E | now left]].
Qed.

Lemma fold_raise_spec (l : list (datetime * Q)) (e : extreme) :
  sv_le (speed e) (speed (fold_left raise l e)) /\
  (forall m, m ∈ l -> sv_le (Finite (snd m)) (speed (fold_left raise l e))) /\
  (fold_left raise l e = e \/
   exists m, m ∈ l /\ fold_left raise l e = Extreme (Finite (snd m)) (Some (fst m))).
Proof.
  revert e. induction l as [|x l IH]; intros e; cbn [fold_left].
  - split; [apply sv_le_refl | split; [intros m Hm; inversion Hm | now left]].
  - destruct (IH (raise e x)) as (Hmono & Hall & Hwho).
    destruct (raise_spec e x) as (Hup & Hx & Hcase).
    split; [eapply sv_le_trans; eassumption |]. split.
    + intros m Hm. apply elem_of_cons in Hm as [-> | Hm].
      * eapply sv_le_trans; eassumption.
      * apply Hall, Hm.
    + destruct Hwho as [Hsame | (m & Hm & Hval)].
      * destruct Hcase as [Hc | Hc].
        -- left. rewrite Hsame. exact Hc.
        -- right. exists x. split; [apply list_elem_of_here |].
           rewrite Hsame. exact Hc.
      * right. exists m. split; [apply list_elem_of_further, Hm | exact Hval].
Qed.

Lemma fold_lower_spec (l : list (datetime * Q)) (e : extreme) :
  sv_le (speed (fold_left lower l e)) (speed e) /\
  (forall m, m ∈ l -> sv_le (speed (fold_left lower l e)) (Finite (snd m))) /\
  (fold_left lower l e = e \/
   exists m, m ∈ l /\ fold_left lower l e = Extreme (Finite (snd m)) (Some (fst m))).
Proof.
  revert e. induction l as [|x l IH]; intros e; cbn [fold_left].
  - split; [apply sv_le_refl | split; [intros m Hm; inversion Hm | now left]].
  - destruct (IH (lower e x)) as (Hmono & Hall & Hwho).
    destruct (lower_spec e x) as (Hdown & Hx & Hcase).
    split; [eapply sv_le_trans; eassumption |]. split.
    + intros m Hm. apply elem_of_cons in Hm as [-> | Hm].
      * eapply sv_le_trans; eassumption.
      * apply Hall, Hm.
    + destruct Hwho as [Hsame | (m & Hm & Hval)].
      * destruct Hcase as [Hc | Hc].
        -- left. rewrite Hsame. exact Hc.
        -- right. exists x. split; [apply list_elem_of_here |].
           rewrite Hsame. exact Hc.
      * right. exists m. split; [apply list_elem_of_further, Hm | exact Hval].
Qed.

(** [feed] acts on each of the four extremes by its own fold. *)
Lemma feed_extremes (ms : list measurement) (self : WiFiMonitor) :
  let e := speed_extremes self in
  let e' := speed_extremes (feed self ms) in
  max_download e' = fold_left raise (downloads ms) (max_download e) /\
  min_download e' = fold_left lower (downloads ms) (min_download e) /\
  max_upload e' = fold_left raise (uploads ms) (max_upload e) /\
  min_upload e' = fold_left lower (uploads ms) (min_upload e).
Proof.
  revert self. induction ms as [|m ms IH]; intros self; simpl.
  - repeat split.
  - destruct (IH (update_speed_extremes self (m_time m) (m_download m)
                    (m_upload m))) as (H1 & H2 & H3 & H4).
    unfold feed in *. simpl in *.
    rewrite H1, H2, H3, H4. repeat split.
Qed.

Lemma elem_of_downloads (ms : list measurement) (x : datetime * Q) :
  x ∈ downloads ms <-> exists m, m ∈ ms /\ x = (m_time m, m_download m).
Proof.
  unfold downloads. rewrite list_elem_of_fmap.
  split; intros (m & H1 & H2); exists m; tauto.
Qed.

Lemma elem_of_uploads (ms : list measurement) (x : datetime * Q) :
  x ∈ uploads ms <-> exists m, m ∈ ms /\ x = (m_time m, m_upload m).
Proof.
  unfold uploads. rewrite list_elem_of_fmap.
  split; intros (m & H1 & H2); exists m; tauto.
Qed.

(** A maximum that started at 0 and was fed non-negative values is one of
    them. *)
Lemma fold_raise_attained (l : list (datetime * Q)) :
  l <> [] -> (forall x, x ∈ l -> (0 <= snd x)%Q) ->
  exists x, x ∈ l /\
    sv_eq (speed (fold_left raise l (Extreme (Finite 0) None))) (Finite (snd x)).
Proof.
  intros Hne Hpos.
  destruct (fold_raise_spec l (Extreme (Finite 0) None)) as (_ & Hall & Hwho).
  destruct Hwho as [Hsame | (x & Hx & Hval)].
  - destruct l as [|x l]; [congruence |].
    exists x. split; [apply list_elem_of_here |].
    specialize (Hall x (list_elem_of_here _ _)).
    specialize (Hpos x (list_elem_of_here _ _)).
    rewrite Hsame in *. simpl in *. lra.
  - exists x. split; [exact Hx |]. rewrite Hval. simpl. reflexivity.
Qed.

(** A minimum that started at infinity is one of the values it was fed. *)
Lemma fold_lower_attained (l : list (datetime * Q)) :
  l <> [] ->
  exists x, x ∈ l /\
    sv_eq (speed (fold_left lower l (Extreme Infinity None))) (Finite (snd x)).
Proof.
  intros Hne.
  destruct (fold_lower_spec l (Extreme Infinity None)) as (_ & Hall & Hwho).
  destruct Hwho as [Hsame | (x & Hx & Hval)].
  - destruct l as [|x l]; [congruence |].
    specialize (Hall x (list_elem_of_here _ _)).
    rewrite Hsame in Hall. simpl in Hall. contradiction.
  - exists x. split; [exact Hx |]. rewrite Hval. simpl. reflexivity.
Qed.

(** C2. Feed any sequence of measurements to [update_speed_extremes],
    starting from the constructor's state.  The recorded maximum download is
    at least every download fed and the recorded minimum at most every one
    (same for upload).  When the sequence is not empty, each minimum equals
    one of the values fed, and so does each maximum provided the values of
    its direction are not negative (speeds are never negative). *)
Theorem extremes_bound_and_attained (now : datetime) (ms : list measurement) :
  let e := speed_extremes (feed (init now) ms) in
  (forall m, m ∈ ms ->
     sv_le (Finite (m_download m)) (speed (max_download e)) /\
     sv_le (speed (min_download e)) (Finite (m_download m)) /\
     sv_le (Finite (m_upload m)) (speed (max_upload e)) /\
     sv_le (speed (min_upload e)) (Finite (m_upload m))) /\
  (ms <> [] ->
     (exists m, m ∈ ms /\
        sv_eq (speed (min_download e)) (Finite (m_download m))) /\
     (exists m, m ∈ ms /\
        sv_eq (speed (min_upload e)) (Finite (m_upload m))) /\
     ((forall m, m ∈ ms -> (0 <= m_download m)%Q) ->
      exists m, m ∈ ms /\
        sv_eq (speed (max_download e)) (Finite (m_download m))) /\
     ((forall m, m ∈ ms -> (0 <= m_upload m)%Q) ->
      exists m, m ∈ ms /\
        sv_eq (speed (max_upload e)) (Finite (m_upload m)))).
Proof.
  intros e. subst e.
  destruct (feed_extremes ms (init now)) as (Hmaxd & Hmind & Hmaxu & Hminu).
  cbn zeta in *. rewrite Hmaxd, Hmind, Hmaxu, Hminu.
  change (speed_extremes (init now)) with initial_extremes.
  unfold initial_extremes; cbn [max_download min_download max_upload min_upload].
  split.
  - intros m Hm.
    assert (Hd : (m_time m, m_download m) ∈ downloads ms)
      by (apply elem_of_downloads; eauto).
    assert (Hu : (m_time m, m_upload m) ∈ uploads ms)
      by (apply elem_of_uploads; eauto).
    repeat split.
    + apply (proj1 (proj2 (fold_raise_spec _ _)) _ Hd).
    + apply (proj1 (proj2 (fold_lower_spec _ _)) _ Hd).
    + apply (proj1 (proj2 (fold_raise_spec _ _)) _ Hu).
    + apply (proj1 (proj2 (fold_lower_spec _ _)) _ Hu).
  - intros Hne.
    assert (Hdne : downloads ms <> [])
      by (destruct ms; [congruence | discriminate]).
    assert (Hune : uploads ms <> [])
      by (destruct ms; [congruence | discriminate]).
    repeat split.
    + destruct (fold_lower_attained _ Hdne) as (x & Hx & Heq).
      apply elem_of_downloads in Hx as (m & Hm & ->). eauto.
    + destruct (fold_lower_attained _ Hune) as (x & Hx & Heq).
      apply elem_of_uploads in Hx as (m & Hm & ->). eauto.
    + intros Hpos.
      destruct (fold_raise_attained _ Hdne) as (x & Hx & Heq).
      { intros x Hx. apply elem_of_downloads in Hx as (m & Hm & ->).
        apply Hpos, Hm. }
      apply elem_of_downloads in Hx as (m & Hm & ->). eauto.
    + intros Hpos.
      destruct (fold_raise_attained _ Hune) as (x & Hx & Heq).
      { intros x Hx. apply elem_of_uploads in Hx as (m & Hm & ->).
        apply Hpos, Hm. }
      apply elem_of_uploads in Hx as (m & Hm & ->). eauto.
Qed.

(** C2, at the measurements of the three-sample scenario. *)
Lemma extremes_bound_and_attained_witness :
  exists m, m ∈ scenario_measurements /\
    sv_eq (speed (max_download
                    (speed_extremes (feed (init 0) scenario_measurements))))
          (Finite (m_download m)).
Proof.
  apply (proj2 (extremes_bound_and_attained 0 scenario_measurements)).
  - discriminate.
  - intros m Hm. unfold scenario_measurements in Hm.
    repeat (apply elem_of_cons in Hm as [-> | Hm]);
      [apply Qle_bool_imp_le; reflexivity .. | inversion Hm].
Defined.

(** C7. An update with a speed equal to a recorded extreme leaves that
    extreme as it is, speed and timestamp; so repeating a measurement
    changes nothing: the first occurrence of an extreme value is the one
    recorded. *)
Theorem ties_do_not_replace (self : WiFiMonitor) (t t' : datetime) (d u : Q) :
  let e := speed_extremes self in
  let e' := speed_extremes (update_speed_extremes self t d u) in
  (sv_eq (speed (max_download e)) (Finite d) -> max_download e' = max_download e) /\
  (sv_eq (speed (min_download e)) (Finite d) -> min_download e' = min_download e) /\
  (sv_eq (speed (max_upload e)) (Finite u) -> max_upload e' = max_upload e) /\
  (sv_eq (speed (min_upload e)) (Finite u) -> min_upload e' = min_upload e) /\
  update_speed_extremes (update_speed_extremes self t d u) t' d u =
    update_speed_extremes self t d u.
Proof.
  cbn zeta. unfold update_speed_extremes.
  cbn [speed_extremes set_speed_extremes max_download min_download
       max_upload min_upload speeds disconnections hourly_averages
       current_hour].
  repeat split.
  - intros H. apply sv_eq_not_ltb in H as [H _]. now rewrite H.
  - intros H. apply sv_eq_not_ltb in H as [_ H]. now rewrite H.
  - intros H. apply sv_eq_not_ltb in H as [H _]. now rewrite H.
  - intros H. apply sv_eq_not_ltb in H as [_ H]. now rewrite H.
  - assert (Hirr : forall q, Qltb q q = false)
      by (intros q; apply Qltb_ge, Qle_refl).
    unfold set_speed_extremes. cbn [speeds disconnections hourly_averages
      current_hour]. f_equal.
    f_equal.
    + destruct (sv_ltb (speed (max_download (speed_extremes self))) (Finite d))
        eqn:E; [cbn [speed sv_ltb]; now rewrite Hirr | now rewrite E].
    + destruct (sv_ltb (Finite d) (speed (min_download (speed_extremes self))))
        eqn:E; [cbn [speed sv_ltb]; now rewrite Hirr | now rewrite E].
    + destruct (sv_ltb (speed (max_upload (speed_extremes self))) (Finite u))
        eqn:E; [cbn [speed sv_ltb]; now rewrite Hirr | now rewrite E].
    + destruct (sv_ltb (Finite u) (speed (min_upload (speed_extremes self))))
        eqn:E; [cbn [speed sv_ltb]; now rewrite Hirr | now rewrite E].
Qed.

(** C7, at a second download of 50 after a first one. *)
Lemma ties_do_not_replace_witness :
  max_download
    (speed_extremes
       (update_speed_extremes
          (update_speed_extremes (init 0) (hours 10) 50 10)
          (hours 11) 50 10)) =
  max_download
    (speed_extremes (update_speed_extremes (init 0) (hours 10) 50 10)).
Proof.
  apply (proj1 (ties_do_not_replace
                  (update_speed_extremes (init 0) (hours 10) 50 10)
                  (hours 11) (hours 12) 50 10)).
  cbn. reflexivity.
Defined.

(** * The methods, one at a time *)

Lemma bind_Ok {A B : Type} (m : outcome A) (k : A -> outcome B) (b : B) :
  m ≫= k = Ok b -> exists a, m = Ok a /\ k a = Ok b.
Proof. destruct m as [a| |]; simpl; intros H; [eauto | discriminate..]. Qed.

Lemma Qlen_map {A B : Type} (f : A -> B) (l : list A) : Qlen (map f l) = Qlen l.
Proof. unfold Qlen. now rewrite length_map. Qed.

Lemma mean_cons (x : Q) (l : list Q) :
  mean (x :: l) = Ok (Qsum (x :: l) / Qlen (x :: l))%Q.
Proof. reflexivity. Qed.

(** [calculate_hourly_average] never raises; it writes one entry, computed
    from every sample of the log whose hour is the current hour, or nothing
    when there is no such sample. *)
Lemma calculate_hourly_average_spec (self : WiFiMonitor) :
  let hs := filter (fun s => hour s = current_hour self) (speeds self) in
  calculate_hourly_average self =
    Ok (match hs with
        | [] => self
        | _ =>
            set_hourly_averages self
              (<[current_hour self :=
                   HourlyAverage (Qsum (map download hs) / Qlen hs)
                                 (Qsum (map upload hs) / Qlen hs)
                                 (length hs)]> (hourly_averages self))
        end).
Proof.
  cbn zeta. unfold calculate_hourly_average.
  destruct (speeds self) as [|s0 l] eqn:Hl; [reflexivity |].
  destruct (filter _ (s0 :: l)) as [|h hs]; [reflexivity |].
  cbn [map]. rewrite !mean_cons. simpl mbind.
  rewrite <- !(Qlen_map download (h :: hs)) at 1.
  cbn [map]. unfold Qlen. cbn [length]. rewrite !length_map. reflexivity.
Qed.

Lemma calculate_hourly_average_fields (self self' : WiFiMonitor) :
  calculate_hourly_average self = Ok self' ->
  speeds self' = speeds self /\
  disconnections self' = disconnections self /\
  current_hour self' = current_hour self /\
  speed_extremes self' = speed_extremes self.
Proof.
  rewrite calculate_hourly_average_spec. cbn zeta.
  destruct (filter _ _); intros [= <-]; repeat split.
Qed.

Lemma calculate_hourly_average_counts (self self' : WiFiMonitor) :
  counts_positive (hourly_averages self) ->
  calculate_hourly_average self = Ok self' ->
  counts_positive (hourly_averages self').
Proof.
  intros Hinv. rewrite calculate_hourly_average_spec. cbn zeta.
  destruct (filter _ _) as [|x hs]; intros [= <-]; [exact Hinv |].
  intros h a. cbn [hourly_averages set_hourly_averages].
  rewrite lookup_insert. case_decide.
  - intros [= <-]. cbn. lia.
  - apply Hinv.
Qed.

Lemma await_connection_later (script : list (N * bool)) (now : datetime)
    (t : datetime) (rest : list (N * bool)) :
  await_connection script now = Some (t, rest) -> now <= t.
Proof.
  revert now. induction script as [|[dt up] script IH]; intros now; simpl.
  - discriminate.
  - destruct up.
    + intros [= <- <-]. lia.
    + intros H. apply IH in H. unfold seconds in H. lia.
Qed.

(** The polling loop ends as soon as the script holds a successful probe. *)
Lemma await_connection_returns (script : list (N * bool)) (now : datetime) :
  (exists dt, (dt, true) ∈ script) ->
  exists t rest, await_connection script now = Some (t, rest).
Proof.
  revert now. induction script as [|[dt up] script IH]; intros now [dt' Hin].
  - inversion Hin.
  - simpl. destruct up; [eauto |].
    apply elem_of_cons in Hin as [[=] | Hin]. apply IH. eauto.
Qed.

(** The polling loop after [fails] failed polls and one successful one. *)
Lemma await_connection_fails (fails : list (N * bool)) (dt : N)
    (rest : list (N * bool)) (now : datetime) :
  Forall (fun c => snd c = false) fails ->
  await_connection (fails ++ (dt, true) :: rest) now =
    Some (now + polling_time fails + Z.of_N dt, rest).
Proof.
  intros H. revert now. induction H as [|[d up] fails Hup _ IH]; intros now.
  - unfold polling_time. cbn [app await_connection map Zsum fold_right].
    do 2 f_equal. unfold datetime in *. lia.
  - cbn [snd] in Hup. subst up. cbn [app await_connection]. rewrite IH.
    unfold polling_time, Zsum. cbn [map fold_right fst]. do 2 f_equal. unfold datetime in *. lia.
Qed.

Lemma await_connection_starves (script : list (N * bool)) (now : datetime) :
  await_connection script now = None <-> Forall (fun c => snd c = false) script.
Proof.
  revert now. induction script as [|[d up] script IH]; intros now; cbn.
  - split; [constructor | reflexivity].
  - destruct up.
    + split; [discriminate |]. intros H. apply Forall_cons in H as [[=] _].
    + rewrite IH. split; [now constructor |].
      intros H. now apply Forall_cons in H as [_ H].
Qed.

Lemma track_disconnection_spec (self self' : WiFiMonitor)
    (start_time : datetime) (w w' : world) :
  track_disconnection self start_time w = Ok (self', w') ->
  self' = set_disconnections self
            (disconnections self ++
               [Disconnection start_time (clock w') (clock w' - start_time)]) /\
  clock w <= clock w'.
Proof.
  unfold track_disconnection.
  destruct (await_connection _ _) as [[t rest]|] eqn:E; [|discriminate].
  intros [= <- <-]. cbn [clock]. split; [reflexivity |].
  eapply await_connection_later, E.
Qed.

Lemma measure_speed_fields (self self' : WiFiMonitor) (w w' : world)
    (d u : option Q) :
  measure_speed self w = Ok (d, u, self', w') ->
  speeds self' = speeds self /\
  disconnections self' = disconnections self /\
  hourly_averages self' = hourly_averages self /\
  current_hour self' = current_hour self /\
  clock w <= clock w'.
Proof.
  unfold measure_speed.
  destruct (speedtest_script w) as [|[dt [[down up]|]] rest]; [discriminate |..];
    intros [= <- <- <- <-]; cbn; repeat split; lia.
Qed.

(** One turn of the loop: the disconnection log only grows, by coherent
    events; the hourly map keeps its counts positive. *)
Lemma iteration_spec (sw sw' : WiFiMonitor * world) :
  iteration sw = Ok sw' ->
  (exists new, disconnections (fst sw') = disconnections (fst sw) ++ new /\
               Forall event_ok new) /\
  (counts_positive (hourly_averages (fst sw)) ->
   counts_positive (hourly_averages (fst sw'))).
Proof.
  destruct sw as [self w]. unfold iteration.
  intros H. apply bind_Ok in H as (self1 & Hfin & H).
  assert (Hself1 : disconnections self1 = disconnections self /\
                   (counts_positive (hourly_averages self) ->
                    counts_positive (hourly_averages self1))).
  { case_decide.
    - injection Hfin as <-. tauto.
    - apply bind_Ok in Hfin as (self0 & Hcalc & [= <-]).
      cbn [disconnections hourly_averages set_current_hour].
      split.
      + apply (calculate_hourly_average_fields _ _ Hcalc).
      + intros Hc. eapply calculate_hourly_average_counts; eassumption. }
  destruct Hself1 as [Hd1 Hc1].
  apply bind_Ok in H as ([connected w1] & Hconn & H).
  destruct connected; cbn [negb] in H.
  - apply bind_Ok in H as ([[[d u] self2] w2] & Hms & H).
    apply measure_speed_fields in Hms as (Hs2 & Hd2 & Hh2 & _ & _).
    injection H as <-. cbn [fst].
    split.
    + exists []. rewrite app_nil_r.
      split; [|constructor].
      destruct (truthy d && truthy u); [destruct d, u |]; cbn; congruence.
    + intros Hc.
      assert (Hh : forall s, hourly_averages
                (if truthy d && truthy u
                 then match d, u with
                      | Some d0, Some u0 =>
                          set_speeds self2 (speeds self2 ++ [s d0 u0])
                      | _, _ => self2
                      end
                 else self2) = hourly_averages self2).
      { intros s. destruct (truthy d && truthy u); [destruct d, u |]; reflexivity. }
      intros h a.
      rewrite (Hh (Sample (clock w) (hour_of (clock w)))), Hh2.
      apply Hc1, Hc.
  - destruct sw' as [self' w'].
    apply track_disconnection_spec in H as [-> Hclk]. cbn [fst].
    cbn [disconnections hourly_averages set_disconnections]. split.
    + rewrite Hd1. eexists. split; [reflexivity |].
      repeat constructor; cbn; lia.
    + exact Hc1.
Qed.

Lemma reachable_inv (sw : WiFiMonitor * world) :
  reachable sw ->
  Forall event_ok (disconnections (fst sw)) /\
  counts_positive (hourly_averages (fst sw)).
Proof.
  induction 1 as [now w | sw sw' _ [IHd IHc] Hit | self self' w _ [IHd IHc] Hfin].
  - cbn. split; [constructor | intros h a Hl; rewrite lookup_empty in Hl; discriminate].
  - apply iteration_spec in Hit as [(new & -> & Hnew) Hc].
    split; [apply Forall_app; tauto | tauto].
  - cbn [fst] in *. split.
    + now rewrite (proj1 (proj2 (calculate_hourly_average_fields _ _ Hfin))).
    + eapply calculate_hourly_average_counts; eassumption.
Qed.

(** The sample log only grows, by samples stamped with their own hour. *)
Lemma iteration_speeds (sw sw' : WiFiMonitor * world) :
  iteration sw = Ok sw' ->
  exists new, speeds (fst sw') = speeds (fst sw) ++ new /\ Forall sample_ok new.
Proof.
  destruct sw as [self w]. unfold iteration.
  intros H. apply bind_Ok in H as (self1 & Hfin & H).
  assert (Hs1 : speeds self1 = speeds self).
  { case_decide.
    - now injection Hfin as <-.
    - apply bind_Ok in Hfin as (self0 & Hcalc & [= <-]).
      apply (calculate_hourly_average_fields _ _ Hcalc). }
  apply bind_Ok in H as ([connected w1] & _ & H).
  destruct connected; cbn [negb] in H.
  - apply bind_Ok in H as ([[[d u] self2] w2] & Hms & H).
    apply measure_speed_fields in Hms as (Hs2 & _).
    injection H as <-. cbn [fst]. rewrite <- Hs1, <- Hs2.
    destruct (truthy d && truthy u); [destruct d as [d|], u as [u|] |];
      try (exists []; rewrite app_nil_r; split; [reflexivity | constructor]).
    eexists. split; [reflexivity |]. repeat constructor.
  - destruct sw' as [self' w'].
    apply track_disconnection_spec in H as [-> _]. cbn [fst].
    exists []. rewrite app_nil_r. split; [exact Hs1 | constructor].
Qed.

Lemma reachable_samples (sw : WiFiMonitor * world) :
  reachable sw -> Forall sample_ok (speeds (fst sw)).
Proof.
  induction 1 as [now w | sw sw' _ IH Hit | self self' w _ IH Hfin].
  - constructor.
  - apply iteration_speeds in Hit as (new & -> & Hnew).
    apply Forall_app. tauto.
  - cbn [fst] in *.
    now rewrite (proj1 (calculate_hourly_average_fields _ _ Hfin)).
Qed.

(** * Disconnections *)

Lemma fold_left_durations (l : list disconnection) (a : Z) :
  fold_left (fun total_duration d => total_duration + d_duration d) l a =
  a + Zsum (map d_duration l).
Proof.
  revert a. induction l as [|d l IH]; intros a; simpl.
  - lia.
  - rewrite IH. lia.
Qed.

Lemma durations_of_coherent (l : list disconnection) :
  Forall event_ok l ->
  map d_duration l = map (fun d => d_end d - d_start d) l.
Proof.
  induction 1 as [|d l [Hd _] _ IH]; simpl; [reflexivity |].
  now rewrite Hd, IH.
Qed.

Lemma after_outage_reachable : reachable after_outage.
Proof.
  apply (reach_iteration (init (hours 10), outage_world)).
  - apply reach_init.
  - run_model.
Qed.

(** C3. The total downtime of a monitor with no disconnection is the zero
    duration, and in every state the program reaches it is the sum of
    [end - start] over the recorded disconnections. *)
Theorem total_downtime_is_sum_of_outages :
  (forall self, disconnections self = [] -> calculate_total_downtime self = 0) /\
  (forall sw, reachable sw ->
     calculate_total_downtime (fst sw) =
     Zsum (map (fun d => d_end d - d_start d) (disconnections (fst sw)))).
Proof.
  split.
  - intros self H. unfold calculate_total_downtime. now rewrite H.
  - intros sw Hr. unfold calculate_total_downtime.
    rewrite fold_left_durations.
    rewrite (durations_of_coherent _ (proj1 (reachable_inv sw Hr))). lia.
Qed.

(** The 42-second outage adds up to 42 seconds of downtime. *)
Example outage_downtime :
  iteration (init (hours 10), outage_world) = Ok after_outage /\
  calculate_total_downtime (fst after_outage) = seconds 42.
Proof. split; run_model. Qed.

(** C3, at the state after the 42-second outage. *)
Lemma total_downtime_is_sum_of_outages_witness :
  calculate_total_downtime (fst after_outage) =
  Zsum (map (fun d => d_end d - d_start d) (disconnections (fst after_outage))).
Proof.
  apply (proj2 total_downtime_is_sum_of_outages after_outage).
  apply after_outage_reachable.
Defined.

(** C9. [track_disconnection] returns once a probe succeeds; what it then
    does to the monitor is append one record whose start is the timestamp it
    was given, whose end is the clock at reconnection and whose duration is
    their difference, and the end is not before a start that was read from
    the clock.  In every reachable state each record has
    [duration = end - start] and [start <= end].  No method changes or
    removes a record: the log of one state is a prefix of the next.
    Reconnection is the first successful poll: after [fails] failed polls
    the record ends at the clock on entry plus the time of each failed poll,
    the five seconds slept after each, and the time of the successful poll,
    and the polls after that one are left in the world; while every poll
    fails no record is made, the call does not return. *)
Theorem disconnection_recorded_at_reconnection :
  (forall self start_time w,
     (exists dt, (dt, true) ∈ reachable_script w) ->
     exists self' w', track_disconnection self start_time w = Ok (self', w')) /\
  (forall self start_time w self' w',
     track_disconnection self start_time w = Ok (self', w') ->
     disconnections self' =
       disconnections self ++
         [Disconnection start_time (clock w') (clock w' - start_time)] /\
     (start_time <= clock w -> start_time <= clock w')) /\
  (forall sw, reachable sw -> Forall event_ok (disconnections (fst sw))) /\
  (forall sw sw', iteration sw = Ok sw' ->
     disconnections (fst sw) `prefix_of` disconnections (fst sw')) /\
  (forall self self', calculate_hourly_average self = Ok self' ->
     disconnections self' = disconnections self) /\
  (forall self t d u,
     disconnections (update_speed_extremes self t d u) = disconnections self) /\
  (forall self w d u self' w', measure_speed self w = Ok (d, u, self', w') ->
     disconnections self' = disconnections self) /\
  (forall self start_time w fails dt rest,
     reachable_script w = fails ++ (dt, true) :: rest ->
     Forall (fun c => snd c = false) fails ->
     let end_time := clock w + polling_time fails + Z.of_N dt in
     track_disconnection self start_time w =
       Ok (set_disconnections self
             (disconnections self ++
                [Disconnection start_time end_time (end_time - start_time)]),
           World end_time rest (speedtest_script w))) /\
  (forall self start_time w,
     track_disconnection self start_time w = Starved <->
     Forall (fun c => snd c = false) (reachable_script w)).
Proof.
  split; [|split; [|split; [|split; [|split; [|split; [|split; [|split]]]]]]].
  - intros self start_time w Hex. unfold track_disconnection.
    destruct (await_connection_returns _ (clock w) Hex) as (t & rest & ->).
    eauto.
  - intros self start_time w self' w' H. split.
    + apply track_disconnection_spec in H as [-> _]. reflexivity.
    + intros Hle. apply track_disconnection_spec in H as [_ Hclk]. lia.
  - intros sw Hr. apply (reachable_inv sw Hr).
  - intros sw sw' Hit. apply iteration_spec in Hit as [(new & -> & _) _].
    now exists new.
  - intros self self' H. apply (calculate_hourly_average_fields _ _ H).
  - reflexivity.
  - intros self w d u self' w' H. apply (measure_speed_fields _ _ _ _ _ _ H).
  - intros self start_time w fails dt rest Hs Hf. cbn zeta.
    unfold track_disconnection.
    rewrite Hs, (await_connection_fails _ _ _ _ Hf). reflexivity.
  - intros self start_time w. unfold track_disconnection.
    rewrite <- (await_connection_starves _ (clock w)).
    destruct (await_connection _ _) as [[t rest]|]; split; easy.
Qed.

(** C9, at the 42-second outage. *)
Lemma disconnection_recorded_at_reconnection_witness :
  Forall event_ok (disconnections (fst after_outage)).
Proof.
  apply (proj1 (proj2 (proj2 disconnection_recorded_at_reconnection))
               after_outage).
  apply after_outage_reachable.
Defined.

(** * The hourly map *)

(** C4. Finalising an hour of which the log holds no sample returns the
    monitor as it was: nothing is written to the hourly map.  Counts in the
    map are at least 1: true of the constructor's state, kept by
    [calculate_hourly_average] and by a turn of the loop, untouched by the
    other methods, hence true in every reachable state. *)
Theorem empty_hour_writes_no_entry :
  (forall self,
     filter (fun s => hour s = current_hour self) (speeds self) = [] ->
     calculate_hourly_average self = Ok self) /\
  (forall now, counts_positive (hourly_averages (init now))) /\
  (forall self self', counts_positive (hourly_averages self) ->
     calculate_hourly_average self = Ok self' ->
     counts_positive (hourly_averages self')) /\
  (forall sw sw', counts_positive (hourly_averages (fst sw)) ->
     iteration sw = Ok sw' ->
     counts_positive (hourly_averages (fst sw'))) /\
  (forall self t d u,
     hourly_averages (update_speed_extremes self t d u) = hourly_averages self) /\
  (forall self start_time w self' w',
     track_disconnection self start_time w = Ok (self', w') ->
     hourly_averages self' = hourly_averages self) /\
  (forall self w d u self' w', measure_speed self w = Ok (d, u, self', w') ->
     hourly_averages self' = hourly_averages self) /\
  (forall sw, reachable sw -> counts_positive (hourly_averages (fst sw))).
Proof.
  repeat split.
  - intros self H. rewrite calculate_hourly_average_spec. cbn zeta.
    now rewrite H.
  - intros now h a H. cbn in H. rewrite lookup_empty in H. discriminate.
  - intros self self'. apply calculate_hourly_average_counts.
  - intros sw sw' Hc Hit. apply (proj2 (iteration_spec _ _ Hit) Hc).
  - intros self start_time w self' w' H.
    apply track_disconnection_spec in H as [-> _]. reflexivity.
  - intros self w d u self' w' H. apply (measure_speed_fields _ _ _ _ _ _ H).
  - intros sw Hr. apply (reachable_inv sw Hr).
Qed.

(** C4, at a monitor whose log has samples of hour 10 only while the current
    hour is 11. *)
Lemma empty_hour_writes_no_entry_witness :
  calculate_hourly_average
    (set_current_hour (set_speeds (init (hours 10)) [Sample (hours 10) 10 50 10]) 11)
  = Ok (set_current_hour
          (set_speeds (init (hours 10)) [Sample (hours 10) 10 50 10]) 11).
Proof.
  apply (proj1 empty_hour_writes_no_entry). vm_compute. reflexivity.
Defined.

(** * Zero speeds *)

Lemma update_speed_extremes_reads_extremes (a b : WiFiMonitor) (t : datetime)
    (d u : Q) :
  speed_extremes a = speed_extremes b ->
  speed_extremes (update_speed_extremes a t d u) =
  speed_extremes (update_speed_extremes b t d u).
Proof. unfold update_speed_extremes. cbn. now intros ->. Qed.

Lemma truthy_zero (d u : Q) :
  (d == 0 \/ u == 0)%Q -> truthy (Some d) && truthy (Some u) = false.
Proof.
  intros [H | H]; apply (proj2 (Qeq_bool_iff _ _)) in H; cbn; rewrite H;
    [reflexivity | apply andb_false_r].
Qed.

Lemma after_zero_download_reachable : reachable after_zero_download.
Proof.
  apply (reach_iteration (init (hours 10), zero_download_world)).
  - apply reach_init.
  - run_model.
Qed.

(** C10. When connectivity is up and the speed test returns a download or
    an upload of exactly 0, the turn of the loop leaves the sample log as it
    was, and the extremes are those [update_speed_extremes] computes from
    the measurement.  From the constructor's state this records a minimum
    download of 0, with a timestamp, while the log is empty. *)
Theorem zero_speed_updates_extremes_without_sample :
  (forall self w cdt crest dt down up rest,
     reachable_script w = (cdt, true) :: crest ->
     speedtest_script w = (dt, Some (down, up)) :: rest ->
     (down / 1000000 == 0 \/ up / 1000000 == 0)%Q ->
     exists self' w',
       iteration (self, w) = Ok (self', w') /\
       speeds self' = speeds self /\
       speed_extremes self' =
         speed_extremes
           (update_speed_extremes self (clock w + Z.of_N cdt + Z.of_N dt)
              (down / 1000000) (up / 1000000))) /\
  (exists sw, reachable sw /\
     speeds (fst sw) = [] /\
     sv_eq (speed (min_download (speed_extremes (fst sw)))) (Finite 0) /\
     e_timestamp (min_download (speed_extremes (fst sw))) <> None).
Proof.
  split.
  - intros self w cdt crest dt down up rest Hconn Hspeed Hzero.
    unfold iteration.
    assert (Hfin : exists self1,
      (if decide (hour_of (clock w) = current_hour self) then Ok self
       else self' ← calculate_hourly_average self;
            Ok (set_current_hour self' (hour_of (clock w)))) = Ok self1 /\
      speeds self1 = speeds self /\ speed_extremes self1 = speed_extremes self).
    { case_decide; [eauto |].
      rewrite calculate_hourly_average_spec. cbn zeta.
      destruct (filter _ _); eexists; (split; [reflexivity |]); split; reflexivity. }
    destruct Hfin as (self1 & -> & Hs1 & He1). cbn [mbind outcome_bind].
    unfold check_connection. rewrite Hconn. cbn [mbind outcome_bind negb].
    unfold measure_speed. cbn [speedtest_script clock reachable_script].
    rewrite Hspeed. cbn [mbind outcome_bind].
    rewrite (truthy_zero _ _ Hzero).
    do 2 eexists. split; [reflexivity |]. split.
    + cbn. exact Hs1.
    + apply update_speed_extremes_reads_extremes, He1.
  - exists after_zero_download. split; [apply after_zero_download_reachable |].
    cbn. repeat split; discriminate.
Qed.

(** C10, at the zero-download world. *)
Lemma zero_speed_updates_extremes_without_sample_witness :
  exists self' w',
    iteration (init (hours 10), zero_download_world) = Ok (self', w') /\
    speeds self' = speeds (init (hours 10)) /\
    speed_extremes self' =
      speed_extremes
        (update_speed_extremes (init (hours 10))
           (clock zero_download_world + Z.of_N 0 + Z.of_N (usec 10))
           (0 / 1000000) (5000000 / 1000000)).
Proof.
  apply (proj1 zero_speed_updates_extremes_without_sample
           (init (hours 10)) zero_download_world 0%N [] (usec 10) 0%Q
           5000000%Q []).
  - reflexivity.
  - reflexivity.
  - left. reflexivity.
Defined.

(** * Pattern analysis and the report never raise *)

Lemma group_keys_nonempty (l : list sample) : l <> [] -> group_keys l <> [].
Proof.
  intros Hne Hnil. destruct l as [|s l]; [congruence |].
  assert (Hin : hour_of (timestamp s) ∈ group_keys (s :: l)).
  { unfold group_keys. rewrite merge_sort_Permutation.
    apply elem_of_remove_dups. cbn [map]. apply list_elem_of_here. }
  rewrite Hnil in Hin. inversion Hin.
Qed.

Lemma idx_first_returns (better : Q -> Q -> bool) (rows : list (Z * Q)) :
  rows <> [] -> exists k, idx_first better rows = Ok k.
Proof. destruct rows; [congruence | simpl; eauto]. Qed.

Lemma column_nonempty {A : Type} (f : pattern_row -> A)
    (rows : list (Z * pattern_row)) : rows <> [] -> column f rows <> [].
Proof. destruct rows; [congruence | discriminate]. Qed.

Lemma agg_nonempty (sqrt : Q -> Q) (l : list sample) : l <> [] -> agg sqrt l <> [].
Proof.
  intros H. apply group_keys_nonempty in H. unfold agg.
  destruct (group_keys l); [congruence | discriminate].
Qed.

Lemma analyze_patterns_returns (sqrt : Q -> Q) (self : WiFiMonitor) :
  exists r, analyze_patterns sqrt self = Ok r.
Proof.
  unfold analyze_patterns.
  destruct (speeds self) as [|s l] eqn:Hl; [eauto |].
  assert (Hrows : agg sqrt (s :: l) <> []) by (apply agg_nonempty; discriminate).
  destruct (idx_first_returns (fun x best => Qltb best x) _
              (column_nonempty download_mean _ Hrows)) as (pd & Hpd).
  destruct (idx_first_returns (fun x best => Qltb best x) _
              (column_nonempty upload_mean _ Hrows)) as (pu & Hpu).
  destruct (idx_first_returns (fun x best => Qltb x best) _
              (column_nonempty download_mean _ Hrows)) as (ld & Hld).
  destruct (idx_first_returns (fun x best => Qltb x best) _
              (column_nonempty upload_mean _ Hrows)) as (lu & Hlu).
  unfold idxmax, idxmin. rewrite Hpd, Hpu, Hld, Hlu. cbn [mbind outcome_bind].
  eauto.
Qed.

Lemma generate_report_returns (sqrt : Q -> Q) (self : WiFiMonitor)
    (now : datetime) : exists report, generate_report sqrt self now = Ok report.
Proof.
  unfold generate_report.
  destruct (analyze_patterns_returns sqrt self) as (r & ->).
  cbn [mbind outcome_bind]. eauto.
Qed.

Lemma generate_report_pristine (sqrt : Q -> Q) (self : WiFiMonitor)
    (now : datetime) :
  pristine self -> generate_report sqrt self now = Ok (empty_report now).
Proof.
  intros (Hs & Hd & Hh & He).
  unfold generate_report, analyze_patterns, calculate_total_downtime.
  rewrite Hs, Hd, Hh, He. reflexivity.
Qed.

(** A turn of the loop in which the speed test throws records nothing. *)
Lemma iteration_data_loss (sw sw' : WiFiMonitor * world) :
  pristine (fst sw) /\ total_data_loss (snd sw) ->
  iteration sw = Ok sw' ->
  pristine (fst sw') /\ total_data_loss (snd sw').
Proof.
  destruct sw as [self w]. cbn [fst snd].
  intros [(Hs & Hd & Hh & He) [Hconn Hspeed]]. unfold iteration.
  assert (Hfin : exists self1,
    (if decide (hour_of (clock w) = current_hour self) then Ok self
     else self' ← calculate_hourly_average self;
          Ok (set_current_hour self' (hour_of (clock w)))) = Ok self1 /\
    pristine self1).
  { case_decide; [exists self; repeat split; assumption |].
    unfold calculate_hourly_average. rewrite Hs. cbn [mbind outcome_bind].
    eexists. split; [reflexivity |]. repeat split; assumption. }
  destruct Hfin as (self1 & -> & Hp1). cbn [mbind outcome_bind].
  unfold check_connection.
  destruct (reachable_script w) as [|[cdt up] crest] eqn:Ec; [discriminate |].
  apply Forall_cons in Hconn as [Hup Hconn]. cbn [snd] in Hup. subst up.
  cbn [mbind outcome_bind negb]. unfold measure_speed.
  cbn [speedtest_script clock reachable_script].
  destruct (speedtest_script w) as [|[dt r] rest] eqn:Es; [discriminate |].
  apply Forall_cons in Hspeed as [Hr Hspeed]. cbn [snd] in Hr. subst r.
  cbn [mbind outcome_bind truthy andb]. intros [= <-].
  split; [exact Hp1 | split; assumption].
Qed.

Lemma loop_invariant (P : WiFiMonitor * world -> Prop) :
  (forall sw sw', P sw -> iteration sw = Ok sw' -> P sw') ->
  forall fuel end_time sw sw',
    P sw -> loop fuel end_time sw = Ok sw' -> P sw'.
Proof.
  intros Hstep fuel end_time. induction fuel as [|fuel IH]; intros sw sw' HP;
    cbn [loop]; case_decide; try discriminate; try (intros [= <-]; exact HP).
  intros Hb. apply bind_Ok in Hb as (sw1 & Hit & Hloop).
  eapply IH; [eapply Hstep; eassumption | exact Hloop].
Qed.

(** Such a turn does return, and takes at least the minute it sleeps. *)
Lemma iteration_data_loss_returns (sw : WiFiMonitor * world) :
  pristine (fst sw) -> total_data_loss (snd sw) ->
  reachable_script (snd sw) <> [] -> speedtest_script (snd sw) <> [] ->
  exists sw',
    iteration sw = Ok sw' /\
    clock (snd sw) + seconds 60 <= clock (snd sw') /\
    length (reachable_script (snd sw)) = S (length (reachable_script (snd sw'))) /\
    length (speedtest_script (snd sw)) = S (length (speedtest_script (snd sw'))).
Proof.
  destruct sw as [self w]. cbn [fst snd].
  intros (Hs & Hd & Hh & He) [Hconn Hspeed] Hc Ht. unfold iteration.
  assert (Hfin : exists self1,
    (if decide (hour_of (clock w) = current_hour self) then Ok self
     else self' ← calculate_hourly_average self;
          Ok (set_current_hour self' (hour_of (clock w)))) = Ok self1).
  { case_decide; [eauto |].
    unfold calculate_hourly_average. rewrite Hs. cbn [mbind outcome_bind]. eauto. }
  destruct Hfin as (self1 & ->). cbn [mbind outcome_bind].
  unfold check_connection.
  destruct (reachable_script w) as [|[cdt up] crest] eqn:Ec; [congruence |].
  apply Forall_cons in Hconn as [Hup _]. cbn [snd] in Hup. subst up.
  cbn [mbind outcome_bind negb]. unfold measure_speed.
  cbn [speedtest_script clock reachable_script].
  destruct (speedtest_script w) as [|[dt r] rest] eqn:Es; [congruence |].
  apply Forall_cons in Hspeed as [Hr _]. cbn [snd] in Hr. subst r.
  cbn [mbind outcome_bind truthy andb]. eexists. split; [reflexivity |].
  cbn. unfold seconds. repeat split; lia.
Qed.

(** With a minute of fuel and of script for every minute of the run, the
    loop ends. *)
Lemma loop_data_loss_returns (fuel : nat) :
  forall (end_time : datetime) (sw : WiFiMonitor * world),
    pristine (fst sw) -> total_data_loss (snd sw) ->
    end_time - clock (snd sw) <= seconds 60 * Z.of_nat fuel ->
    (fuel <= length (reachable_script (snd sw)))%nat ->
    (fuel <= length (speedtest_script (snd sw)))%nat ->
    exists sw', loop fuel end_time sw = Ok sw'.
Proof.
  induction fuel as [|fuel IH]; intros end_time sw Hp Hl Hend Hc Ht;
    cbn [loop]; case_decide as Hlt; eauto.
  - unfold seconds in Hend. lia.
  - destruct (iteration_data_loss_returns sw Hp Hl)
      as (sw1 & Hit & Hclk & Hc1 & Ht1).
    { intros E. rewrite E in Hc. cbn in Hc. lia. }
    { intros E. rewrite E in Ht. cbn in Ht. lia. }
    rewrite Hit. cbn [mbind outcome_bind].
    destruct (iteration_data_loss sw sw1 (conj Hp Hl) Hit) as [Hp1 Hl1].
    apply IH; try assumption; unfold seconds in *; lia.
Qed.

(** * A log of one sample *)

Lemma group_keys_single (s : sample) : group_keys [s] = [hour_of (timestamp s)].
Proof. reflexivity. Qed.

Lemma group_single (s : sample) : group [s] (hour_of (timestamp s)) = [s].
Proof. unfold group. rewrite filter_cons_True by reflexivity. reflexivity. Qed.

(** C1, as the code has it.  On a log of one sample [analyze_patterns]
    returns the hour of that sample's timestamp as peak and as low hour of
    both directions, and an undefined stability score (NaN) for both.  The
    standard deviation of a group of one is NaN, and a NaN contributes
    nothing to the stability score: the mean skips it, wherever it stands
    among the hours.  In the logs the program builds, the hour of a sample's
    timestamp is the hour stored in the sample. *)
Theorem single_sample_patterns (sqrt : Q -> Q) (self : WiFiMonitor)
    (s : sample) :
  let h := hour_of (timestamp s) in
  (exists p,
     analyze_patterns sqrt (set_speeds self [s]) = Ok (Some p) /\
     peak_hours p = ByDirection h h /\
     low_hours p = ByDirection h h /\
     stability p = ByDirection None None) /\
  (forall x, group_std sqrt [x] = None) /\
  (forall col, series_mean (None :: col) = series_mean col) /\
  (forall sw, reachable sw -> Forall sample_ok (speeds (fst sw))) /\
  (forall before after,
     series_mean (before ++ None :: after) = series_mean (before ++ after)).
Proof.
  cbn zeta. split; [|split; [|split; [|split]]].
  - unfold analyze_patterns, agg. cbn [speeds set_speeds].
    rewrite group_keys_single. cbn [map]. rewrite group_single.
    cbn. eexists. split; [reflexivity |]. cbn. repeat split.
  - reflexivity.
  - reflexivity.
  - apply reachable_samples.
  - intros before after. unfold series_mean. now rewrite !omap_app.
Qed.

(** C1 fails as stated.  The stability score of a one-sample log is NaN for
    both directions, not 0.  With three samples of deviation 3 in hour 10
    and a lone sample in hour 11, the download score is 3, the deviation of
    hour 10 alone; a deviation of 0 for hour 11 would make it 3/2. *)
Lemma single_sample_stability_is_nan :
  analyze_patterns sqrt_down one_sample_log =
    Ok (Some (Patterns (ByDirection 10 10) (ByDirection 10 10)
                       (ByDirection None None)
                       [(10, PatternRow 50 None 10 None)])) /\
  (exists p,
     analyze_patterns sqrt_down lone_hour_log = Ok (Some p) /\
     exists score, of_download (stability p) = Some score /\
                   (score == 3)%Q /\ ~ (score == 3 / 2)%Q).
Proof.
  split.
  - run_model.
  - eexists. split; [run_model |].
    eexists. split; [reflexivity |]. split; [reflexivity | discriminate].
Qed.

(** * Scenarios *)

(** C6. The three-sample scenario, run through the loop.  The log holds the
    three samples; the maximum download is 80, recorded in hour 10, the
    minimum 20, recorded in hour 11; the hourly map holds hour 10 with means
    65 and 12.5 over 2 samples and hour 11 with 20 and 5 over 1 sample, and
    nothing else, the entry of hour 10 being written by the third turn of
    the loop, at the change of hour; the peak download hour is 10 and the
    low one 11. *)
Theorem three_sample_scenario (sqrt : Q -> Q) :
  exists report self w a10 a11 p sw3,
    run sqrt 3 (seconds 180) (init scenario_start, scenario_world)
      = Ok (report, self, w) /\
    iterations 3 (init scenario_start, scenario_world) = Ok sw3 /\
    sorted_items (hourly_averages (fst sw3)) = [(10, a10)] /\
    sorted_items (hourly_averages self) = [(10, a10); (11, a11)] /\
    analyze_patterns sqrt self = Ok (Some p) /\
    Forall2 (fun s x => hour s = fst (fst x) /\
                        (download s == snd (fst x))%Q /\
                        (upload s == snd x)%Q)
            (speeds self)
            [(10, 50%Q, 10%Q); (10, 80%Q, 15%Q); (11, 20%Q, 5%Q)] /\
    sv_eq (speed (max_download (speed_extremes self))) (Finite 80) /\
    hour_of <$> e_timestamp (max_download (speed_extremes self)) = Some 10 /\
    sv_eq (speed (min_download (speed_extremes self))) (Finite 20) /\
    hour_of <$> e_timestamp (min_download (speed_extremes self)) = Some 11 /\
    ((avg_download a10 == 65)%Q /\ (avg_upload a10 == 25 / 2)%Q /\
     samples a10 = 2%nat) /\
    ((avg_download a11 == 20)%Q /\ (avg_upload a11 == 5)%Q /\
     samples a11 = 1%nat) /\
    of_download (peak_hours p) = 10 /\
    of_download (low_hours p) = 11 /\
    PeakSpeedHour Download 10 ∈ report /\
    LowestSpeedHour Download 11 ∈ report.
Proof.
  do 7 eexists.
  split; [run_model |].
  split; [run_model |].
  split; [run_model |].
  split; [run_model |].
  split; [run_model |].
  split; [repeat constructor |].
  cbn [speed_extremes max_download min_download speed e_timestamp
       avg_download avg_upload samples peak_hours low_hours of_download].
  repeat split; try (apply list_elem_of_In; cbn; tauto).
Qed.

(** C8, as the code has it.  [calculate_hourly_average] never raises and
    leaves the log as it is: no bucket is cleared.  When the log holds
    samples whose hour is the current hour, the entry written for that hour
    (replacing any earlier one) is the mean download, the mean upload and
    the number of all of them, whenever they were logged; otherwise the
    monitor is unchanged. *)
Theorem finalize_averages_whole_log (self : WiFiMonitor) :
  let hs := filter (fun s => hour s = current_hour self) (speeds self) in
  exists self',
    calculate_hourly_average self = Ok self' /\
    speeds self' = speeds self /\
    (hs = [] -> self' = self) /\
    (hs <> [] ->
     hourly_averages self' =
       <[current_hour self :=
           HourlyAverage (Qsum (map download hs) / Qlen hs)
                         (Qsum (map upload hs) / Qlen hs)
                         (length hs)]> (hourly_averages self) /\
     hourly_averages self' !! current_hour self =
       Some (HourlyAverage (Qsum (map download hs) / Qlen hs)
                           (Qsum (map upload hs) / Qlen hs)
                           (length hs))).
Proof.
  cbn zeta. eexists. split; [apply calculate_hourly_average_spec |].
  cbn zeta. destruct (filter _ _) as [|x hs] eqn:E.
  - split; [reflexivity |]. split; [reflexivity |]. congruence.
  - split; [reflexivity |]. split; [discriminate |]. intros _.
    cbn [hourly_averages set_hourly_averages]. split; [reflexivity |].
    apply lookup_insert_eq.
Qed.

(** C8 fails as stated.  In the run that wraps past midnight, the first
    finalisation of hour 10 writes the entry of the first day's sample
    (50, 10, one sample).  The second one, a day later, after one more sample
    (80, 15) in hour 10, writes means 65 and 12.5 over 2 samples: the first
    day's sample is counted again.  From the second day's sample alone the
    entry would be 80, 15 and 1. *)
Lemma second_finalize_counts_first_day :
  (exists sw a,
     iterations 2 (init day_wrap_start, day_wrap_world) = Ok sw /\
     sorted_items (hourly_averages (fst sw)) = [(10, a)] /\
     (avg_download a == 50)%Q /\ (avg_upload a == 10)%Q /\ samples a = 1%nat) /\
  (exists report self w a,
     run sqrt_down 5 (hours 24 + seconds 120) (init day_wrap_start, day_wrap_world)
       = Ok (report, self, w) /\
     sorted_items (hourly_averages self) = [(10, a)] /\
     Forall2 (fun s x => hour_of (timestamp s) = 10 /\ hour s = 10 /\
                         timestamp s / hours 24 = fst (fst x) /\
                         (download s == snd (fst x))%Q /\
                         (upload s == snd x)%Q)
             (speeds self) [(0, 50%Q, 10%Q); (1, 80%Q, 15%Q)] /\
     (avg_download a == 65)%Q /\ (avg_upload a == 25 / 2)%Q /\
     samples a = 2%nat /\
     ~ (avg_download a == 80)%Q /\ ~ (avg_upload a == 15)%Q /\
     samples a <> 1%nat).
Proof.
  split.
  - do 2 eexists.
    split; [run_model |].
    split; [run_model |].
    cbn. repeat split.
  - do 4 eexists.
    split; [run_model |].
    split; [run_model |].
    split; [repeat constructor |].
    cbn. repeat split; discriminate.
Qed.

(** * Further properties of the methods *)

(** ** The shape of a turn of the loop *)

(** What a turn of the loop that returns has done: the hour is rolled, one
    reachability answer is consumed, and then either the outage is tracked
    or one speed test is consumed and the program sleeps a minute. *)
Lemma iteration_cases (self : WiFiMonitor) (w : world)
    (sw' : WiFiMonitor * world) :
  iteration (self, w) = Ok sw' ->
  exists self1 cdt up crest,
    reachable_script w = (cdt, up) :: crest /\
    (speeds self1 = speeds self /\
     disconnections self1 = disconnections self /\
     speed_extremes self1 = speed_extremes self /\
     current_hour self1 = hour_of (clock w)) /\
    ((hour_of (clock w) = current_hour self /\ self1 = self) \/
     (hour_of (clock w) <> current_hour self /\
      exists self0, calculate_hourly_average self = Ok self0 /\
                    self1 = set_current_hour self0 (hour_of (clock w)))) /\
    let w1 := World (clock w + Z.of_N cdt) crest (speedtest_script w) in
    if up then
      exists dt r rest,
        speedtest_script w = (dt, r) :: rest /\
        let w2 := World (clock w1 + Z.of_N dt) crest rest in
        sw' =
          (match r with
           | None => self1
           | Some (down_bps, up_bps) =>
               let d := (down_bps / 1000000)%Q in
               let u := (up_bps / 1000000)%Q in
               let self2 := update_speed_extremes self1 (clock w2) d u in
               if truthy (Some d) && truthy (Some u)
               then set_speeds self2
                      (speeds self2 ++
                         [Sample (clock w) (hour_of (clock w)) d u])
               else self2
           end, sleep 60 w2)
    else track_disconnection self1 (clock w1) w1 = Ok sw'.
Proof.
  unfold iteration. intros H. apply bind_Ok in H as (self1 & Hroll & H).
  apply bind_Ok in H as ([up w1] & Hconn & H).
  unfold check_connection in Hconn.
  destruct (reachable_script w) as [|[cdt up'] crest] eqn:Ec; [discriminate |].
  injection Hconn as <- <-.
  exists self1, cdt, up', crest. split; [reflexivity |].
  assert (Hroll' :
    (hour_of (clock w) = current_hour self /\ self1 = self) \/
    (hour_of (clock w) <> current_hour self /\
     exists self0, calculate_hourly_average self = Ok self0 /\
                   self1 = set_current_hour self0 (hour_of (clock w)))).
  { case_decide as Hh.
    - left. split; [exact Hh | congruence].
    - right. split; [exact Hh |].
      apply bind_Ok in Hroll as (self0 & Hcalc & [= <-]). eauto. }
  split.
  { destruct Hroll' as [[Hh ->] | [Hh (self0 & Hcalc & ->)]].
    - repeat split. symmetry. exact Hh.
    - apply calculate_hourly_average_fields in Hcalc as (H1 & H2 & _ & H4).
      cbn. repeat split; assumption. }
  split; [exact Hroll' |].
  cbn zeta. destruct up'; cbn [negb] in H; [|exact H].
  apply bind_Ok in H as ([[[d u] self2] w2] & Hms & H).
  unfold measure_speed in Hms. cbn [speedtest_script clock reachable_script] in Hms.
  destruct (speedtest_script w) as [|[dt r] rest] eqn:Es; [discriminate |].
  exists dt, r, rest. split; [reflexivity |].
  destruct r as [[down_bps up_bps]|]; injection Hms as <- <- <- <-;
    injection H as <-; reflexivity.
Qed.

Lemma truthy_both (d u : Q) :
  truthy (Some d) && truthy (Some u) = true -> ~ (d == 0)%Q /\ ~ (u == 0)%Q.
Proof.
  cbn. intros H. apply andb_true_iff in H as [Hd Hu].
  apply negb_true_iff in Hd, Hu.
  split; intros E; apply (proj2 (Qeq_bool_iff _ _)) in E; congruence.
Qed.

(** What a turn of the loop does to the sample log and the extremes. *)
Lemma iteration_log (self : WiFiMonitor) (w : world)
    (sw' : WiFiMonitor * world) :
  iteration (self, w) = Ok sw' ->
  clock w <= clock (snd sw') /\
  ((speeds (fst sw') = speeds self /\
    speed_extremes (fst sw') = speed_extremes self) \/
   exists t d u,
     speed_extremes (fst sw') =
       speed_extremes (update_speed_extremes self t d u) /\
     (speeds (fst sw') = speeds self \/
      speeds (fst sw') =
        speeds self ++ [Sample (clock w) (hour_of (clock w)) d u] /\
      ~ (d == 0)%Q /\ ~ (u == 0)%Q)).
Proof.
  intros H.
  apply iteration_cases in H
    as (self1 & cdt & up & crest & _ & (Hs & _ & He & _) & _ & H).
  cbn zeta in H. destruct up.
  - destruct H as (dt & [[down_bps up_bps]|] & rest & _ & ->); cbn [fst snd].
    + split; [unfold sleep, advance, seconds; cbn; lia |].
      right. eexists _, _, _. split.
      * destruct (truthy _ && truthy _); cbn [speed_extremes set_speeds];
          apply update_speed_extremes_reads_extremes, He.
      * destruct (truthy _ && truthy _) eqn:E; [right | left]; cbn; [|exact Hs].
        rewrite Hs. split; [reflexivity | apply truthy_both, E].
    + split; [unfold sleep, advance, seconds; cbn; lia |]. left. tauto.
  - destruct sw' as [self' w'].
    apply track_disconnection_spec in H as [-> Hclk]. cbn in *.
    split; [lia | left; tauto].
Qed.

(** What a turn of the loop does to the disconnection log. *)
Lemma iteration_outage (self : WiFiMonitor) (w : world)
    (sw' : WiFiMonitor * world) :
  iteration (self, w) = Ok sw' ->
  disconnections (fst sw') = disconnections self \/
  exists t0,
    clock w <= t0 <= clock (snd sw') /\
    disconnections (fst sw') =
      disconnections self ++
        [Disconnection t0 (clock (snd sw')) (clock (snd sw') - t0)].
Proof.
  intros H.
  apply iteration_cases in H
    as (self1 & cdt & up & crest & _ & (_ & Hd & _ & _) & _ & H).
  cbn zeta in H. destruct up.
  - left. destruct H as (dt & [[down_bps up_bps]|] & rest & _ & ->);
      cbn [fst]; [destruct (truthy _ && truthy _) |]; cbn; exact Hd.
  - right. destruct sw' as [self' w'].
    apply track_disconnection_spec in H as [-> Hclk]. cbn in *.
    eexists. split; [|rewrite Hd; reflexivity]. lia.
Qed.

Lemma update_speed_extremes_widens (self : WiFiMonitor) (t : datetime)
    (d u : Q) (s : sample) :
  within_extremes (speed_extremes self) s ->
  within_extremes (speed_extremes (update_speed_extremes self t d u)) s.
Proof.
  intros (H1 & H2 & H3 & H4). unfold within_extremes, update_speed_extremes.
  cbn [speed_extremes set_speed_extremes max_download min_download
       max_upload min_upload].
  pose proof (raise_spec (max_download (speed_extremes self)) (t, d)) as (R1 & _).
  pose proof (lower_spec (min_download (speed_extremes self)) (t, d)) as (L1 & _).
  pose proof (raise_spec (max_upload (speed_extremes self)) (t, u)) as (R2 & _).
  pose proof (lower_spec (min_upload (speed_extremes self)) (t, u)) as (L2 & _).
  unfold raise, lower in *. cbn [fst snd] in *.
  repeat split; eapply sv_le_trans; eassumption.
Qed.

Lemma update_speed_extremes_covers (self : WiFiMonitor) (t t' : datetime)
    (h : Z) (d u : Q) :
  within_extremes (speed_extremes (update_speed_extremes self t d u))
                  (Sample t' h d u).
Proof.
  unfold within_extremes, update_speed_extremes.
  cbn [speed_extremes set_speed_extremes max_download min_download
       max_upload min_upload download upload].
  pose proof (raise_spec (max_download (speed_extremes self)) (t, d)) as (_ & R1 & _).
  pose proof (lower_spec (min_download (speed_extremes self)) (t, d)) as (_ & L1 & _).
  pose proof (raise_spec (max_upload (speed_extremes self)) (t, u)) as (_ & R2 & _).
  pose proof (lower_spec (min_upload (speed_extremes self)) (t, u)) as (_ & L2 & _).
  unfold raise, lower in *. cbn [fst snd] in *. tauto.
Qed.

Lemma within_extremes_reads_extremes (a b : WiFiMonitor) (s : sample) :
  speed_extremes a = speed_extremes b ->
  within_extremes (speed_extremes a) s -> within_extremes (speed_extremes b) s.
Proof. now intros ->. Qed.

(** ** The logs of a reachable state *)

Lemma iterations_reachable (n : nat) (sw sw' : WiFiMonitor * world) :
  reachable sw -> iterations n sw = Ok sw' -> reachable sw'.
Proof.
  revert sw. induction n as [|n IH]; intros sw Hr; cbn [iterations].
  - now intros [= <-].
  - intros H. apply bind_Ok in H as (sw1 & Hit & H).
    eapply IH; [eapply reach_iteration; eassumption | exact H].
Qed.

Lemma scenario_state_reachable : reachable scenario_state.
Proof.
  apply (iterations_reachable 3 (init scenario_start, scenario_world)).
  - apply reach_init.
  - run_model.
Qed.

Lemma day_wrap_state_reachable : reachable day_wrap_state.
Proof.
  apply (iterations_reachable 5 (init day_wrap_start, day_wrap_world)).
  - apply reach_init.
  - run_model.
Qed.

(** X1. No sample of the log has a download or an upload of zero: the loop
    appends a measurement only when both speeds are true in Python's
    sense. *)
Theorem logged_samples_are_nonzero (sw : WiFiMonitor * world) :
  reachable sw -> Forall nonzero_sample (speeds (fst sw)).
Proof.
  induction 1 as [now w | [self w] sw' _ IH Hit | self self' w _ IH Hfin].
  - constructor.
  - apply iteration_log in Hit as [_ [[-> _] | (t & d & u & _ & [-> | (-> & Hd & Hu)])]];
      try exact IH.
    apply Forall_app. split; [exact IH |]. repeat constructor; assumption.
  - cbn [fst] in *.
    now rewrite (proj1 (calculate_hourly_average_fields _ _ Hfin)).
Qed.

Lemma logged_samples_are_nonzero_witness :
  Forall nonzero_sample (speeds (fst scenario_state)).
Proof.
  apply (logged_samples_are_nonzero scenario_state).
  apply scenario_state_reachable.
Defined.

(** X2. Every sample of the log lies between the recorded extremes: its
    download is at most the maximum download and at least the minimum one,
    and the same for its upload. *)
Theorem extremes_enclose_log (sw : WiFiMonitor * world) :
  reachable sw ->
  Forall (within_extremes (speed_extremes (fst sw))) (speeds (fst sw)).
Proof.
  induction 1 as [now w | [self w] sw' _ IH Hit | self self' w _ IH Hfin].
  - constructor.
  - cbn [fst] in IH.
    apply iteration_log in Hit as [_ [[-> ->] | (t & d & u & -> & Hlog)]];
      [exact IH |].
    assert (Hold : Forall (within_extremes
                     (speed_extremes (update_speed_extremes self t d u)))
                     (speeds self)).
    { eapply Forall_impl; [exact IH |].
      intros s. apply update_speed_extremes_widens. }
    destruct Hlog as [-> | (-> & _)]; [exact Hold |].
    apply Forall_app. split; [exact Hold |].
    constructor; [|constructor]. apply update_speed_extremes_covers.
  - cbn [fst] in *.
    destruct (calculate_hourly_average_fields _ _ Hfin) as (-> & _ & _ & ->).
    exact IH.
Qed.

Lemma extremes_enclose_log_witness :
  Forall (within_extremes (speed_extremes (fst scenario_state)))
         (speeds (fst scenario_state)).
Proof.
  apply (extremes_enclose_log scenario_state).
  apply scenario_state_reachable.
Defined.

(** X3. The sample log is in the order of its timestamps, and no timestamp
    is later than the clock. *)
Theorem log_is_chronological (sw : WiFiMonitor * world) :
  reachable sw ->
  chronological (speeds (fst sw)) /\
  Forall (fun s => timestamp s <= clock (snd sw)) (speeds (fst sw)).
Proof.
  induction 1 as [now w | [self w] sw' _ [IHs IHc] Hit | self self' w _ IH Hfin].
  - split; constructor.
  - cbn [fst snd] in *.
    apply iteration_log in Hit as [Hclk Hlog].
    assert (Hc' : Forall (fun s => timestamp s <= clock (snd sw')) (speeds self)).
    { eapply Forall_impl; [exact IHc |]. cbn. intros s Hs. lia. }
    destruct Hlog as [[-> _] | (t & d & u & _ & [-> | (-> & _)])];
      try (split; assumption).
    split.
    + apply StronglySorted_app_2; [|exact IHs | repeat constructor].
      intros a b Ha Hb. apply list_elem_of_singleton in Hb as ->. cbn.
      apply (proj1 (Forall_forall _ _) IHc a Ha).
    + apply Forall_app. split; [exact Hc' |]. repeat constructor. cbn. exact Hclk.
  - cbn [fst snd] in *.
    now rewrite (proj1 (calculate_hourly_average_fields _ _ Hfin)).
Qed.

Lemma log_is_chronological_witness :
  chronological (speeds (fst scenario_state)) /\
  Forall (fun s => timestamp s <= clock (snd scenario_state))
         (speeds (fst scenario_state)).
Proof.
  apply (log_is_chronological scenario_state).
  apply scenario_state_reachable.
Defined.

(** X4. The recorded outages follow one another: each ends no later than
    the next one starts, and none ends later than the clock. *)
Theorem outages_are_successive (sw : WiFiMonitor * world) :
  reachable sw ->
  successive (disconnections (fst sw)) /\
  Forall (fun d => d_end d <= clock (snd sw)) (disconnections (fst sw)).
Proof.
  induction 1 as [now w | [self w] sw' Hr [IHs IHc] Hit | self self' w _ IH Hfin].
  - split; constructor.
  - cbn [fst snd] in *.
    pose proof (proj1 (iteration_log _ _ _ Hit)) as Hclk.
    assert (Hc' : Forall (fun d => d_end d <= clock (snd sw'))
                         (disconnections self)).
    { eapply Forall_impl; [exact IHc |]. cbn. intros d Hd. lia. }
    apply iteration_outage in Hit as [-> | (t0 & Ht0 & ->)];
      [split; assumption |].
    split.
    + apply StronglySorted_app_2; [|exact IHs | repeat constructor].
      intros a b Ha Hb. apply list_elem_of_singleton in Hb as ->. cbn.
      pose proof (proj1 (Forall_forall _ _) IHc a Ha) as Hle. cbn in Hle. lia.
    + apply Forall_app. split; [exact Hc' |]. repeat constructor. cbn. lia.
  - cbn [fst snd] in *.
    now rewrite (proj1 (proj2 (calculate_hourly_average_fields _ _ Hfin))).
Qed.

Lemma outages_are_successive_witness :
  successive (disconnections (fst day_wrap_state)) /\
  Forall (fun d => d_end d <= clock (snd day_wrap_state))
         (disconnections (fst day_wrap_state)).
Proof.
  apply (outages_are_successive day_wrap_state).
  apply day_wrap_state_reachable.
Defined.

(** ** The hourly map and the log *)

Lemma of_hour_snoc (h : Z) (l : list sample) (s : sample) :
  of_hour h (l ++ [s]) = of_hour h l ++ (if decide (hour s = h) then [s] else []).
Proof.
  unfold of_hour. rewrite filter_app. reflexivity.
Qed.

Lemma calculate_hourly_average_summarises (self self' : WiFiMonitor) :
  past_hours_final self -> calculate_hourly_average self = Ok self' ->
  summarises self'.
Proof.
  intros [Hpast Hcur]. rewrite calculate_hourly_average_spec. cbn zeta.
  fold (of_hour (current_hour self) (speeds self)).
  destruct (of_hour (current_hour self) (speeds self)) as [|x hs] eqn:E;
    intros [= <-]; intros h; cbn [hourly_averages speeds set_hourly_averages].
  - destruct (decide (h = current_hour self)) as [-> | Hne].
    + rewrite E. apply Hcur. reflexivity.
    + apply Hpast, Hne.
  - rewrite lookup_insert. case_decide as Hh.
    + subst h. rewrite E. reflexivity.
    + apply Hpast. congruence.
Qed.

Lemma summarises_past (self : WiFiMonitor) (h' : Z) :
  summarises self -> past_hours_final (set_current_hour self h').
Proof.
  intros H. split; cbn [speeds hourly_averages current_hour set_current_hour].
  - intros h _. apply H.
  - intros E. rewrite H, E. reflexivity.
Qed.

Lemma past_hours_final_snoc (self : WiFiMonitor) (s : sample) :
  past_hours_final self -> hour s = current_hour self ->
  past_hours_final (set_speeds self (speeds self ++ [s])).
Proof.
  intros [Hpast Hcur] Hs. split; cbn [speeds hourly_averages current_hour set_speeds].
  - intros h Hne. rewrite of_hour_snoc.
    rewrite decide_False by congruence. rewrite app_nil_r. apply Hpast, Hne.
  - rewrite of_hour_snoc. rewrite decide_True by exact Hs.
    intros E. apply app_eq_nil in E as [_ [=]].
Qed.

Lemma iteration_past_hours (sw sw' : WiFiMonitor * world) :
  past_hours_final (fst sw) -> iteration sw = Ok sw' ->
  past_hours_final (fst sw').
Proof.
  destruct sw as [self w]. cbn [fst]. intros Hinv Hit.
  apply iteration_cases in Hit
    as (self1 & cdt & up & crest & _ & (_ & _ & _ & Hcur1) & Hroll & H).
  assert (H1 : past_hours_final self1).
  { destruct Hroll as [[_ ->] | [_ (self0 & Hcalc & ->)]]; [exact Hinv |].
    apply summarises_past.
    eapply calculate_hourly_average_summarises; eassumption. }
  cbn zeta in H. destruct up.
  - destruct H as (dt & [[down_bps up_bps]|] & rest & _ & ->); cbn [fst];
      [|exact H1].
    destruct (truthy _ && truthy _); [|exact H1].
    apply (past_hours_final_snoc
             (update_speed_extremes self1 _ _ _)); [exact H1 |].
    cbn. symmetry. exact Hcur1.
  - destruct sw' as [self' w'].
    apply track_disconnection_spec in H as [-> _]. exact H1.
Qed.

Lemma reachable_past_hours (sw : WiFiMonitor * world) :
  reachable sw -> past_hours_final (fst sw).
Proof.
  induction 1 as [now w | sw sw' _ IH Hit | self self' w _ IH Hfin].
  - split; cbn; intros; apply lookup_empty.
  - eapply iteration_past_hours; eassumption.
  - cbn [fst] in *.
    pose proof (calculate_hourly_average_summarises _ _ IH Hfin) as Hsum.
    split.
    + intros h _. apply Hsum.
    + intros E. rewrite Hsum, E. reflexivity.
Qed.

(** X5. What the hourly map holds.  In every reachable state, the entry of
    each hour other than the current one is the mean download, the mean
    upload and the count of all the samples of that hour in the log, and an
    hour without samples has no entry.  When [run] returns, this holds of
    every hour: the map of the final report summarises the whole log by
    hour of day. *)
Theorem hourly_map_summarises_log :
  (forall sw, reachable sw -> past_hours_final (fst sw)) /\
  (forall sqrt fuel duration now w report self w',
     run sqrt fuel duration (init now, w) = Ok (report, self, w') ->
     summarises self).
Proof.
  split; [apply reachable_past_hours |].
  intros sqrt fuel duration now w report self w' Hrun.
  unfold run in Hrun. apply bind_Ok in Hrun as ([self1 w1] & Hloop & Hrun).
  apply bind_Ok in Hrun as (self2 & Hfin & Hrun).
  apply bind_Ok in Hrun as (report' & _ & [= _ <- _]).
  apply (loop_invariant (fun sw => past_hours_final (fst sw))
           iteration_past_hours) in Hloop.
  - eapply calculate_hourly_average_summarises; [exact Hloop | exact Hfin].
  - apply (reachable_past_hours (init now, w)), reach_init.
Qed.

Lemma hourly_map_summarises_log_witness :
  past_hours_final (fst day_wrap_state).
Proof.
  apply (proj1 hourly_map_summarises_log day_wrap_state).
  apply day_wrap_state_reachable.
Defined.

Lemma hour_of_range (t : datetime) : 0 <= hour_of t < 24.
Proof. unfold hour_of. apply Z.mod_pos_bound. lia. Qed.

(** X6. Every key of the hourly map is the hour of a sample of the log and
    lies between 0 and 23. *)
Theorem hourly_keys_are_logged_hours (sw : WiFiMonitor * world) (h : Z)
    (a : hourly_average) :
  reachable sw -> hourly_averages (fst sw) !! h = Some a ->
  0 <= h < 24 /\ exists s, s ∈ speeds (fst sw) /\ hour s = h.
Proof.
  intros Hr Hl.
  assert (Hne : of_hour h (speeds (fst sw)) <> []).
  { destruct (reachable_past_hours sw Hr) as [Hpast Hcur].
    intros E. destruct (decide (h = current_hour (fst sw))) as [-> | Hne].
    - rewrite (Hcur E) in Hl. discriminate.
    - rewrite (Hpast h Hne), E in Hl. discriminate. }
  destruct (of_hour h (speeds (fst sw))) as [|s hs] eqn:E; [congruence |].
  assert (Hs : s ∈ of_hour h (speeds (fst sw)))
    by (rewrite E; apply list_elem_of_here).
  apply list_elem_of_filter in Hs as [Hh Hs].
  split; [|eauto].
  pose proof (proj1 (Forall_forall _ _) (reachable_samples sw Hr) s Hs) as Hok.
  unfold sample_ok in Hok. rewrite <- Hh, Hok. apply hour_of_range.
Qed.

Lemma hourly_keys_are_logged_hours_witness :
  0 <= 10 < 24 /\ exists s, s ∈ speeds (fst scenario_state) /\ hour s = 10.
Proof.
  apply (hourly_keys_are_logged_hours scenario_state 10
           (HourlyAverage (130000000000000 # 2000000000000)
                          (25000000000000 # 2000000000000) 2)).
  - apply scenario_state_reachable.
  - vm_compute. reflexivity.
Defined.

(** X7. Finalising twice in a row is finalising once: the second call
    writes the entry the first one wrote. *)
Theorem finalize_is_idempotent (self : WiFiMonitor) :
  calculate_hourly_average self ≫= calculate_hourly_average =
  calculate_hourly_average self.
Proof.
  rewrite (calculate_hourly_average_spec self). cbn zeta.
  destruct (filter _ (speeds self)) as [|x hs] eqn:E; cbn [mbind outcome_bind].
  - rewrite calculate_hourly_average_spec. cbn zeta. now rewrite E.
  - rewrite calculate_hourly_average_spec. cbn zeta.
    cbn [speeds current_hour hourly_averages set_hourly_averages].
    rewrite E. unfold set_hourly_averages.
    cbn [speeds disconnections hourly_averages current_hour speed_extremes].
    now rewrite insert_insert_eq.
Qed.

(** ** The extremes as functions of what was measured *)

Lemma sv_le_antisym (a b : speedval) : sv_le a b -> sv_le b a -> sv_eq a b.
Proof.
  destruct a, b; simpl; try tauto. intros H1 H2. apply Qle_antisym; assumption.
Qed.

Lemma fold_raise_le (l l' : list (datetime * Q)) (e : extreme) :
  (forall x, x ∈ l -> x ∈ l') ->
  sv_le (speed (fold_left raise l e)) (speed (fold_left raise l' e)).
Proof.
  intros Hsub.
  destruct (fold_raise_spec l e) as (_ & _ & [-> | (x & Hx & ->)]).
  - apply fold_raise_spec.
  - apply (proj1 (proj2 (fold_raise_spec l' e)) x (Hsub x Hx)).
Qed.

Lemma fold_lower_le (l l' : list (datetime * Q)) (e : extreme) :
  (forall x, x ∈ l -> x ∈ l') ->
  sv_le (speed (fold_left lower l' e)) (speed (fold_left lower l e)).
Proof.
  intros Hsub.
  destruct (fold_lower_spec l e) as (_ & _ & [-> | (x & Hx & ->)]).
  - apply fold_lower_spec.
  - apply (proj1 (proj2 (fold_lower_spec l' e)) x (Hsub x Hx)).
Qed.

(** X8. The four extreme speeds depend on which measurements were fed, not
    on their order: two sequences that are permutations of each other leave
    equal speeds (the timestamps may differ). *)
Theorem extreme_speeds_ignore_order (self : WiFiMonitor)
    (ms ms' : list measurement) :
  ms ≡ₚ ms' ->
  let e := speed_extremes (feed self ms) in
  let e' := speed_extremes (feed self ms') in
  sv_eq (speed (max_download e)) (speed (max_download e')) /\
  sv_eq (speed (min_download e)) (speed (min_download e')) /\
  sv_eq (speed (max_upload e)) (speed (max_upload e')) /\
  sv_eq (speed (min_upload e)) (speed (min_upload e')).
Proof.
  intros Hperm. cbn zeta.
  destruct (feed_extremes ms self) as (-> & -> & -> & ->).
  destruct (feed_extremes ms' self) as (-> & -> & -> & ->).
  assert (Hd : forall x, x ∈ downloads ms <-> x ∈ downloads ms').
  { intros x. unfold downloads. now rewrite Hperm. }
  assert (Hu : forall x, x ∈ uploads ms <-> x ∈ uploads ms').
  { intros x. unfold uploads. now rewrite Hperm. }
  repeat split; apply sv_le_antisym;
    first [apply fold_raise_le | apply fold_lower_le];
    intros x; first [apply Hd | apply Hu].
Qed.

Lemma extreme_speeds_ignore_order_witness :
  let e := speed_extremes (feed (init 0) scenario_measurements) in
  let e' := speed_extremes (feed (init 0) (reverse scenario_measurements)) in
  sv_eq (speed (max_download e)) (speed (max_download e')) /\
  sv_eq (speed (min_download e)) (speed (min_download e')) /\
  sv_eq (speed (max_upload e)) (speed (max_upload e')) /\
  sv_eq (speed (min_upload e)) (speed (min_upload e')).
Proof.
  apply (extreme_speeds_ignore_order (init 0) scenario_measurements
           (reverse scenario_measurements)).
  symmetry. apply reverse_Permutation.
Defined.

Lemma fold_raise_idle (l : list (datetime * Q)) (e : extreme) :
  Forall (fun x => sv_le (Finite (snd x)) (speed e)) l ->
  fold_left raise l e = e.
Proof.
  induction 1 as [|x l Hx _ IH]; cbn [fold_left]; [reflexivity |].
  assert (E : raise e x = e).
  { unfold raise. destruct (sv_ltb (speed e) (Finite (snd x))) eqn:Hlt; [|reflexivity].
    destruct (speed e) as [q|]; cbn in *; [|discriminate].
    apply Qltb_lt in Hlt. lra. }
  now rewrite E.
Qed.

(** X9. Reading the sentinels after feeding measurements to the
    constructor's state.  A minimum is still infinite, and still without a
    timestamp, exactly when nothing was fed.  A maximum is still without a
    timestamp exactly when no value of its direction was above 0; its speed
    is then the initial 0. *)
Theorem sentinels_mean_no_data (now : datetime) (ms : list measurement) :
  let e := speed_extremes (feed (init now) ms) in
  (speed (min_download e) = Infinity <-> ms = []) /\
  (e_timestamp (min_download e) = None <-> ms = []) /\
  (speed (min_upload e) = Infinity <-> ms = []) /\
  (e_timestamp (min_upload e) = None <-> ms = []) /\
  (e_timestamp (max_download e) = None <->
   forall m, m ∈ ms -> (m_download m <= 0)%Q) /\
  (e_timestamp (max_upload e) = None <->
   forall m, m ∈ ms -> (m_upload m <= 0)%Q) /\
  (e_timestamp (max_download e) = None -> speed (max_download e) = Finite 0) /\
  (e_timestamp (max_upload e) = None -> speed (max_upload e) = Finite 0).
Proof.
  cbn zeta.
  destruct (feed_extremes ms (init now)) as (-> & -> & -> & ->).
  change (speed_extremes (init now)) with initial_extremes.
  unfold initial_extremes; cbn [max_download min_download max_upload min_upload].
  assert (Hmin : forall l : list (datetime * Q),
    l <> [] ->
    exists x, fold_left lower l (Extreme Infinity None) =
              Extreme (Finite (snd x)) (Some (fst x))).
  { intros l Hne.
    destruct (fold_lower_spec l (Extreme Infinity None))
      as (_ & Hall & [Hsame | (x & _ & Hx)]); [|eauto].
    destruct l as [|x l]; [congruence |].
    specialize (Hall x (list_elem_of_here _ _)).
    rewrite Hsame in Hall. contradiction. }
  assert (Hmax : forall l : list (datetime * Q),
    e_timestamp (fold_left raise l (Extreme (Finite 0) None)) = None <->
    forall x, x ∈ l -> (snd x <= 0)%Q).
  { intros l. split.
    - intros Ht x Hx.
      destruct (fold_raise_spec l (Extreme (Finite 0) None))
        as (_ & Hall & [Hsame | (y & _ & Hy)]).
      + specialize (Hall x Hx). rewrite Hsame in Hall. exact Hall.
      + rewrite Hy in Ht. discriminate.
    - intros Hall. rewrite fold_raise_idle; [reflexivity |].
      apply Forall_forall. exact Hall. }
  assert (Hmax0 : forall l : list (datetime * Q),
    e_timestamp (fold_left raise l (Extreme (Finite 0) None)) = None ->
    speed (fold_left raise l (Extreme (Finite 0) None)) = Finite 0).
  { intros l Ht.
    destruct (fold_raise_spec l (Extreme (Finite 0) None))
      as (_ & _ & [-> | (y & _ & Hy)]); [reflexivity |].
    rewrite Hy in Ht. discriminate. }
  assert (Hd : downloads ms = [] <-> ms = [])
    by (destruct ms; split; (reflexivity || discriminate)).
  assert (Hu : uploads ms = [] <-> ms = [])
    by (destruct ms; split; (reflexivity || discriminate)).
  assert (Hlow : forall l : list (datetime * Q),
    (speed (fold_left lower l (Extreme Infinity None)) = Infinity <-> l = []) /\
    (e_timestamp (fold_left lower l (Extreme Infinity None)) = None <-> l = [])).
  { intros l. destruct l as [|x l]; [split; split; reflexivity |].
    destruct (Hmin (x :: l)) as (y & ->); [discriminate |].
    split; split; discriminate. }
  split; [rewrite <- Hd; apply Hlow |].
  split; [rewrite <- Hd; apply Hlow |].
  split; [rewrite <- Hu; apply Hlow |].
  split; [rewrite <- Hu; apply Hlow |].
  split.
  { rewrite Hmax. split.
    - intros H m Hm. apply (H (m_time m, m_download m)).
      apply elem_of_downloads. eauto.
    - intros H x Hx. apply elem_of_downloads in Hx as (m & Hm & ->).
      apply H, Hm. }
  split.
  { rewrite Hmax. split.
    - intros H m Hm. apply (H (m_time m, m_upload m)).
      apply elem_of_uploads. eauto.
    - intros H x Hx. apply elem_of_uploads in Hx as (m & Hm & ->).
      apply H, Hm. }
  split; apply Hmax0.
Qed.

(** ** Waiting for the connection *)

(** X10. How long [track_disconnection] waits.  If the first successful
    poll comes after [fails] failed ones, the record appended ends at the
    clock on entry plus the time of every failed poll, five seconds of sleep
    after each of them, and the time of the successful poll; the polls up to
    that one are consumed and no others.  If no poll ever succeeds the call
    does not return. *)
Theorem track_disconnection_waits (self : WiFiMonitor) (start_time : datetime)
    (w : world) :
  (forall fails dt rest,
     reachable_script w = fails ++ (dt, true) :: rest ->
     Forall (fun c => snd c = false) fails ->
     let end_time := clock w + polling_time fails + Z.of_N dt in
     track_disconnection self start_time w =
       Ok (set_disconnections self
             (disconnections self ++
                [Disconnection start_time end_time (end_time - start_time)]),
           World end_time rest (speedtest_script w))) /\
  (track_disconnection self start_time w = Starved <->
   Forall (fun c => snd c = false) (reachable_script w)).
Proof.
  split.
  - intros fails dt rest Hs Hf. cbn zeta. unfold track_disconnection.
    rewrite Hs, (await_connection_fails _ _ _ _ Hf). reflexivity.
  - unfold track_disconnection.
    rewrite <- (await_connection_starves _ (clock w)).
    destruct (await_connection _ _) as [[t rest]|]; split; easy.
Qed.

Lemma track_disconnection_waits_witness :
  track_disconnection (init (hours 10)) (hours 10)
    (World (hours 10) (repeat (usec 2, false) 6 ++ [(0%N, true)]) []) =
  Ok (set_disconnections (init (hours 10))
        [Disconnection (hours 10) (hours 10 + seconds 42) (seconds 42)],
      World (hours 10 + seconds 42) [] []).
Proof.
  apply (proj1 (track_disconnection_waits (init (hours 10)) (hours 10)
                  (World (hours 10)
                         (repeat (usec 2, false) 6 ++ [(0%N, true)]) []))
               (repeat (usec 2, false) 6) 0%N []).
  - reflexivity.
  - repeat constructor.
Defined.

(** ** The loop *)

Lemma iteration_never_raises (sw : WiFiMonitor * world) :
  iteration sw = Starved \/ exists sw', iteration sw = Ok sw'.
Proof.
  destruct sw as [self w]. unfold iteration.
  assert (Hroll : exists self1,
    (if decide (hour_of (clock w) = current_hour self) then Ok self
     else self' ← calculate_hourly_average self;
          Ok (set_current_hour self' (hour_of (clock w)))) = Ok self1).
  { case_decide; [eauto |]. rewrite calculate_hourly_average_spec.
    cbn [mbind outcome_bind]. eauto. }
  destruct Hroll as (self1 & ->). cbn [mbind outcome_bind].
  unfold check_connection.
  destruct (reachable_script w) as [|[cdt up] crest]; [now left |].
  cbn [mbind outcome_bind]. destruct up; cbn [negb].
  - unfold measure_speed. cbn [speedtest_script].
    destruct (speedtest_script w) as [|[dt [[down_bps up_bps]|]] rest];
      cbn [mbind outcome_bind]; eauto.
  - unfold track_disconnection. destruct (await_connection _ _) as [[t rest]|]; eauto.
Qed.

Lemma loop_never_raises (fuel : nat) (end_time : datetime)
    (sw : WiFiMonitor * world) :
  loop fuel end_time sw = Starved \/
  exists sw', loop fuel end_time sw = Ok sw' /\ end_time <= clock (snd sw').
Proof.
  revert sw. induction fuel as [|fuel IH]; intros sw; cbn [loop];
    case_decide as Hlt; try (now left); try (right; eexists; split; [reflexivity | lia]).
  destruct (iteration_never_raises sw) as [-> | (sw1 & ->)]; [now left |].
  cbn [mbind outcome_bind]. apply IH.
Qed.

(** X11. [run] never ends in an exception: it returns, or the world's
    scripts (or the fuel) run out before the time is up.  When it returns,
    the clock has reached the start time plus the duration. *)
Theorem run_returns_or_starves (sqrt : Q -> Q) (fuel : nat)
    (duration : timedelta) (sw : WiFiMonitor * world) :
  run sqrt fuel duration sw = Starved \/
  exists report self w,
    run sqrt fuel duration sw = Ok (report, self, w) /\
    clock (snd sw) + duration <= clock w.
Proof.
  unfold run.
  destruct (loop_never_raises fuel (clock (snd sw) + duration) sw)
    as [-> | ([self1 w1] & -> & Hclk)]; [now left |].
  right. cbn [mbind outcome_bind]. rewrite calculate_hourly_average_spec.
  cbn [mbind outcome_bind].
  match goal with |- context [generate_report sqrt ?s ?t] =>
    destruct (generate_report_returns sqrt s t) as (report & ->) end.
  cbn [mbind outcome_bind]. eauto.
Qed.

(** ** Peak and low hours *)

Lemma strictly_sorted {A : Type} (key : A -> Z) (l : list A) :
  StronglySorted (fun a b => key a <= key b) l -> NoDup (map key l) ->
  StronglySorted (fun a b => key a < key b) l.
Proof.
  induction 1 as [|x l _ IH Hx]; intros Hnd; [constructor |].
  cbn [map] in Hnd. apply NoDup_cons in Hnd as [Hnot Hnd].
  constructor; [apply IH, Hnd |].
  apply Forall_forall. intros y Hy.
  pose proof (proj1 (Forall_forall _ _) Hx y Hy) as Hle. cbn in Hle.
  assert (key x <> key y).
  { intros E. apply Hnot. rewrite E. apply list_elem_of_fmap_2, Hy. }
  lia.
Qed.

(** [groupby]: one key per hour of the log, in ascending order. *)
Lemma group_keys_spec (l : list sample) :
  StronglySorted Z.lt (group_keys l) /\
  forall k, k ∈ group_keys l <-> exists s, s ∈ l /\ hour_of (timestamp s) = k.
Proof.
  unfold group_keys. split.
  - apply (strictly_sorted id).
    + apply (StronglySorted_merge_sort Z.le).
    + change (map id ?x) with (id <$> x). rewrite list_fmap_id.
      rewrite merge_sort_Permutation. apply NoDup_remove_dups.
  - intros k. rewrite merge_sort_Permutation, elem_of_remove_dups.
    change (map ?f l) with (f <$> l). rewrite list_elem_of_fmap.
    split; intros (s & H1 & H2); exists s; split; (assumption || now symmetry).
Qed.

Section BestIndex.

Variable better : Q -> Q -> bool.
Hypothesis better_irrefl : forall x, better x x = false.
Hypothesis better_asym : forall x y, better x y = true -> better y x = false.
Hypothesis better_le_trans :
  forall x y z, better x y = false -> better y z = false -> better x z = false.
Hypothesis better_lt_le :
  forall b r v, better r b = true -> better r v = false -> better v b = true.
Hypothesis better_le_lt :
  forall r b v, better r b = false -> better v b = true -> better v r = true.

(** The index found is that of a row no other row is better than, and which
    is better than every row with a smaller key. *)
Lemma idx_from_best (rows : list (Z * Q)) :
  forall best : Z * Q,
    StronglySorted Z.lt (map fst (best :: rows)) ->
    exists v,
      (idx_from better best rows, v) ∈ best :: rows /\
      forall x, x ∈ best :: rows ->
        better (snd x) v = false /\
        (fst x < idx_from better best rows -> better v (snd x) = true).
Proof.
  induction rows as [|r rows IH]; intros best Hs; cbn [idx_from].
  - exists (snd best). split; [destruct best; apply list_elem_of_here |].
    intros x Hx. apply list_elem_of_singleton in Hx as ->.
    split; [apply better_irrefl | lia].
  - cbn [map] in Hs. apply StronglySorted_cons in Hs as [Hbest Hs].
    apply Forall_cons in Hbest as [Hbr Hbest].
    destruct (better (snd r) (snd best)) eqn:E.
    + destruct (IH r Hs) as (v & Hin & Hall). exists v.
      split; [apply list_elem_of_further, Hin |].
      intros x Hx. apply elem_of_cons in Hx as [-> | Hx]; [|apply Hall, Hx].
      destruct (Hall r (list_elem_of_here _ _)) as [Hrv _].
      pose proof (better_lt_le _ _ _ E Hrv) as Hvb.
      split; [apply better_asym, Hvb | intros _; exact Hvb].
    + assert (Hs' : StronglySorted Z.lt (map fst (best :: rows))).
      { cbn [map]. apply StronglySorted_cons. split; [exact Hbest |].
        apply StronglySorted_cons in Hs. tauto. }
      destruct (IH best Hs') as (v & Hin & Hall). exists v.
      split.
      { apply elem_of_cons in Hin as [Hin | Hin];
          [rewrite Hin; apply list_elem_of_here
          | do 2 apply list_elem_of_further; exact Hin]. }
      intros x Hx.
      apply elem_of_cons in Hx as [-> | Hx];
        [apply Hall, list_elem_of_here |].
      apply elem_of_cons in Hx as [-> | Hx];
        [|apply Hall, list_elem_of_further, Hx].
      destruct (Hall best (list_elem_of_here _ _)) as [Hbv Hlt].
      split; [eapply better_le_trans; eassumption |].
      intros Hk. apply (better_le_lt _ _ _ E). apply Hlt.
      apply elem_of_cons in Hin as [Hin | Hin].
      * apply (f_equal fst) in Hin. cbn [fst] in Hin. lia.
      * apply (proj1 (Forall_forall _ _) Hbest).
        change (idx_from better best rows)
          with (fst (idx_from better best rows, v)).
        apply list_elem_of_fmap_2, Hin.
Qed.

Lemma idx_first_best (f : pattern_row -> Q) (rows : list (Z * pattern_row))
    (k : Z) :
  StronglySorted Z.lt (map fst rows) ->
  idx_first better (column f rows) = Ok k ->
  exists row, (k, row) ∈ rows /\
    forall k' row', (k', row') ∈ rows ->
      better (f row') (f row) = false /\
      (k' < k -> better (f row) (f row') = true).
Proof.
  intros Hs Hk. unfold idx_first in Hk.
  destruct (column f rows) as [|best rest] eqn:Ec; [discriminate |].
  injection Hk as <-.
  assert (Hkeys : map fst (best :: rest) = map fst rows).
  { rewrite <- Ec. unfold column. rewrite map_map. reflexivity. }
  destruct (idx_from_best rest best) as (v & Hin & Hall).
  { rewrite Hkeys. exact Hs. }
  rewrite <- Ec in Hin, Hall. unfold column in Hin, Hall.
  change (map ?g rows) with (g <$> rows) in Hin, Hall.
  apply list_elem_of_fmap in Hin as ([k0 row] & [= Hk0 ->] & Hrow).
  cbn [fst snd] in *. exists row. split; [rewrite Hk0; exact Hrow |].
  intros k' row' Hx.
  apply (Hall (k', f row')).
  apply list_elem_of_fmap. exists (k', row'). split; [reflexivity | exact Hx].
Qed.

End BestIndex.

Lemma agg_keys (sqrt : Q -> Q) (l : list sample) :
  map fst (agg sqrt l) = group_keys l.
Proof.
  unfold agg. rewrite map_map. cbn [fst]. apply map_id.
Qed.

(** X12. The peak hour of a direction is the hour of [hourly_patterns] with
    the largest mean of that direction, and the low hour the one with the
    smallest mean; among hours with equal means the earliest is returned
    (every earlier hour has a strictly smaller, respectively larger,
    mean). *)
Theorem peak_and_low_hours_are_first_extrema (sqrt : Q -> Q)
    (self : WiFiMonitor) (p : patterns_t) :
  analyze_patterns sqrt self = Ok (Some p) ->
  first_largest download_mean (hourly_patterns p) (of_download (peak_hours p)) /\
  first_largest upload_mean (hourly_patterns p) (of_upload (peak_hours p)) /\
  first_smallest download_mean (hourly_patterns p) (of_download (low_hours p)) /\
  first_smallest upload_mean (hourly_patterns p) (of_upload (low_hours p)).
Proof.
  unfold analyze_patterns. destruct (speeds self) as [|s l] eqn:El; [discriminate |].
  intros H.
  apply bind_Ok in H as (pd & Hpd & H). apply bind_Ok in H as (pu & Hpu & H).
  apply bind_Ok in H as (ld & Hld & H). apply bind_Ok in H as (lu & Hlu & H).
  injection H as <-. cbn [hourly_patterns peak_hours low_hours of_download of_upload].
  assert (Hs : StronglySorted Z.lt (map fst (agg sqrt (s :: l))))
    by (rewrite agg_keys; apply group_keys_spec).
  assert (Hmax : forall f k,
    idxmax (column f (agg sqrt (s :: l))) = Ok k ->
    first_largest f (agg sqrt (s :: l)) k).
  { intros f k Hk. unfold idxmax in Hk.
    apply idx_first_best in Hk as (row & Hin & Hall); try exact Hs.
    - exists row. split; [exact Hin |]. intros k' row' Hx.
      destruct (Hall k' row' Hx) as [H1 H2]. split.
      + apply Qltb_ge, H1.
      + intros Hlt. apply Qltb_lt, H2, Hlt.
    - intros x. apply Qltb_ge, Qle_refl.
    - intros x y Hxy. apply Qltb_lt in Hxy. apply Qltb_ge. lra.
    - intros x y z H1 H2. apply Qltb_ge in H1, H2. apply Qltb_ge. lra.
    - intros b r v H1 H2. apply Qltb_lt in H1. apply Qltb_ge in H2.
      apply Qltb_lt. lra.
    - intros r b v H1 H2. apply Qltb_ge in H1. apply Qltb_lt in H2.
      apply Qltb_lt. lra. }
  assert (Hmin : forall f k,
    idxmin (column f (agg sqrt (s :: l))) = Ok k ->
    first_smallest f (agg sqrt (s :: l)) k).
  { intros f k Hk. unfold idxmin in Hk.
    apply idx_first_best in Hk as (row & Hin & Hall); try exact Hs.
    - exists row. split; [exact Hin |]. intros k' row' Hx.
      destruct (Hall k' row' Hx) as [H1 H2]. split.
      + apply Qltb_ge, H1.
      + intros Hlt. apply Qltb_lt, H2, Hlt.
    - intros x. apply Qltb_ge, Qle_refl.
    - intros x y Hxy. apply Qltb_lt in Hxy. apply Qltb_ge. lra.
    - intros x y z H1 H2. apply Qltb_ge in H1, H2. apply Qltb_ge. lra.
    - intros b r v H1 H2. apply Qltb_lt in H1. apply Qltb_ge in H2.
      apply Qltb_lt. lra.
    - intros r b v H1 H2. apply Qltb_ge in H1. apply Qltb_lt in H2.
      apply Qltb_lt. lra. }
  auto.
Qed.

Lemma peak_and_low_hours_are_first_extrema_witness :
  first_largest download_mean (hourly_patterns lone_hour_patterns)
                (of_download (peak_hours lone_hour_patterns)) /\
  first_largest upload_mean (hourly_patterns lone_hour_patterns)
                (of_upload (peak_hours lone_hour_patterns)) /\
  first_smallest download_mean (hourly_patterns lone_hour_patterns)
                 (of_download (low_hours lone_hour_patterns)) /\
  first_smallest upload_mean (hourly_patterns lone_hour_patterns)
                 (of_upload (low_hours lone_hour_patterns)).
Proof.
  apply (peak_and_low_hours_are_first_extrema sqrt_down lone_hour_log).
  vm_compute. reflexivity.
Defined.

(** With equal means in hours 10 and 11, both peak and low hour are 10. *)
Example tie_goes_to_the_earlier_hour :
  peak_hours lone_hour_patterns = ByDirection 10 10 /\
  low_hours lone_hour_patterns = ByDirection 10 10.
Proof. split; run_model. Qed.

(** ** The stability score *)

Lemma series_mean_nan (col : list (option Q)) :
  series_mean col = None <-> Forall (fun x => x = None) col.
Proof.
  unfold series_mean.
  assert (H : omap id col = [] <-> Forall (fun x => x = None) col).
  { induction col as [|[q|] col IH]; cbn.
    - split; [constructor | reflexivity].
    - split; [discriminate |]. intros H. apply Forall_cons in H as [[=] _].
    - rewrite IH. split; [now constructor |].
      intros H. now apply Forall_cons in H as [_ H]. }
  rewrite <- H. destruct (omap id col); split; easy.
Qed.

Lemma group_std_nan (sqrt : Q -> Q) (xs : list Q) :
  group_std sqrt xs = None <-> (length xs < 2)%nat.
Proof.
  unfold group_std. destruct (Nat.ltb_spec (length xs) 2); split; (easy || lia).
Qed.

Lemma group_outside_keys (l : list sample) (k : Z) :
  k ∉ group_keys l -> group l k = [].
Proof.
  intros Hk. unfold group. destruct (filter _ l) as [|s g] eqn:E; [reflexivity |].
  exfalso. apply Hk. apply group_keys_spec. exists s.
  assert (Hs : s ∈ filter (fun s => hour_of (timestamp s) = k) l)
    by (rewrite E; apply list_elem_of_here).
  apply list_elem_of_filter in Hs. tauto.
Qed.

(** X13. The stability score of a direction is NaN exactly when no hour of
    the log holds two samples; the two directions are NaN together. *)
Theorem stability_is_nan_iff_no_hour_has_two (sqrt : Q -> Q)
    (self : WiFiMonitor) (p : patterns_t) :
  analyze_patterns sqrt self = Ok (Some p) ->
  (of_download (stability p) = None <->
   forall k, (length (group (speeds self) k) < 2)%nat) /\
  (of_upload (stability p) = None <->
   forall k, (length (group (speeds self) k) < 2)%nat).
Proof.
  unfold analyze_patterns. destruct (speeds self) as [|s l] eqn:El; [discriminate |].
  intros H.
  apply bind_Ok in H as (pd & _ & H). apply bind_Ok in H as (pu & _ & H).
  apply bind_Ok in H as (ld & _ & H). apply bind_Ok in H as (lu & _ & H).
  injection H as <-. cbn [stability of_download of_upload].
  assert (Hcol : forall (f : pattern_row -> option Q) (g : sample -> Q),
    (forall k, f (PatternRow
                    (group_mean (map download (group (s :: l) k)))
                    (group_std sqrt (map download (group (s :: l) k)))
                    (group_mean (map upload (group (s :: l) k)))
                    (group_std sqrt (map upload (group (s :: l) k))))
               = group_std sqrt (map g (group (s :: l) k))) ->
    series_mean (map snd (column f (agg sqrt (s :: l)))) = None <->
    forall k, (length (group (s :: l) k) < 2)%nat).
  { intros f g Hf. rewrite series_mean_nan. unfold column, agg.
    rewrite !map_map. cbn [snd fst]. rewrite Forall_forall. split.
    - intros Hall k. destruct (decide (k ∈ group_keys (s :: l))) as [Hk | Hk].
      + specialize (Hall _ (list_elem_of_fmap_2 _ _ _ Hk)).
        cbn beta iota in Hall. cbn [snd fst] in Hall. rewrite Hf in Hall. apply group_std_nan in Hall.
        now rewrite length_map in Hall.
      + rewrite (group_outside_keys _ _ Hk). cbn. lia.
    - intros Hall x Hx. change (map ?h ?y) with (h <$> y) in Hx.
      apply list_elem_of_fmap in Hx as (k & -> & _). cbn [snd fst].
      rewrite Hf. apply group_std_nan. rewrite length_map. apply Hall. }
  split.
  - apply (Hcol download_std download). reflexivity.
  - apply (Hcol upload_std upload). reflexivity.
Qed.

Lemma stability_is_nan_iff_no_hour_has_two_witness :
  (of_download (stability lone_hour_patterns) = None <->
   forall k, (length (group (speeds lone_hour_log) k) < 2)%nat) /\
  (of_upload (stability lone_hour_patterns) = None <->
   forall k, (length (group (speeds lone_hour_log) k) < 2)%nat).
Proof.
  apply (stability_is_nan_iff_no_hour_has_two sqrt_down lone_hour_log).
  vm_compute. reflexivity.
Defined.

(** ** The hourly section of the report *)

#[global] Instance hour_le_trans : Transitive hour_le.
Proof. unfold hour_le. intros a b c. lia. Qed.

#[global] Instance hour_le_total : Total hour_le.
Proof. unfold hour_le. intros a b. lia. Qed.

Lemma sorted_items_spec (m : gmap Z hourly_average) :
  StronglySorted (fun a b => fst a < fst b) (sorted_items m) /\
  forall h a, (h, a) ∈ sorted_items m <-> m !! h = Some a.
Proof.
  unfold sorted_items. split.
  - apply (strictly_sorted fst).
    + apply (StronglySorted_merge_sort hour_le).
    + change (map fst ?x) with (x.*1). rewrite merge_sort_Permutation.
      apply NoDup_fst_map_to_list.
  - intros h a. rewrite merge_sort_Permutation. apply elem_of_map_to_list.
Qed.

(** X14. The report ends with the hourly section: its title, then the four
    lines of each entry of the hourly map, one entry per hour of the map and
    in ascending order of the hours. *)
Theorem report_lists_hours_in_order (sqrt : Q -> Q) (self : WiFiMonitor)
    (now : datetime) :
  exists front items,
    generate_report sqrt self now =
      Ok (front ++ Title HourlySpeedAverages :: concat (map hourly_lines items)) /\
    StronglySorted (fun a b => fst a < fst b) items /\
    forall h a, (h, a) ∈ items <-> hourly_averages self !! h = Some a.
Proof.
  unfold generate_report.
  destruct (analyze_patterns_returns sqrt self) as (patterns & ->).
  cbn [mbind outcome_bind]. rewrite !app_assoc.
  eexists _, _. split; [reflexivity |]. apply sorted_items_spec.
Qed.

(** ** The two ways through a turn of the loop *)

Lemma roll_hour_returns (self : WiFiMonitor) (now : datetime) :
  exists self1,
    (if decide (hour_of now = current_hour self) then Ok self
     else self' ← calculate_hourly_average self;
          Ok (set_current_hour self' (hour_of now))) = Ok self1 /\
    speeds self1 = speeds self /\
    disconnections self1 = disconnections self /\
    speed_extremes self1 = speed_extremes self.
Proof.
  case_decide; [exists self; repeat split |].
  rewrite calculate_hourly_average_spec. cbn zeta.
  destruct (filter _ _); eexists; (split; [reflexivity |]); repeat split.
Qed.

(** X15. A turn of the loop that finds the connection down, in a world
    where it comes back after [fails] failed polls: the turn returns at the
    moment of reconnection, without the minute of sleep and without a speed
    test; the sample log and the extremes are as before; one record is
    appended, from the clock after the failed probe to the reconnection. *)
Theorem outage_turn (self : WiFiMonitor) (w : world) (cdt dt : N)
    (fails rest : list (N * bool)) :
  reachable_script w = (cdt, false) :: fails ++ (dt, true) :: rest ->
  Forall (fun c => snd c = false) fails ->
  let lost := clock w + Z.of_N cdt in
  let found := lost + polling_time fails + Z.of_N dt in
  exists self',
    iteration (self, w) = Ok (self', World found rest (speedtest_script w)) /\
    speeds self' = speeds self /\
    speed_extremes self' = speed_extremes self /\
    disconnections self' =
      disconnections self ++ [Disconnection lost found (found - lost)].
Proof.
  intros Hs Hf. cbn zeta. unfold iteration.
  destruct (roll_hour_returns self (clock w)) as (self1 & -> & H1 & H2 & H3).
  cbn [mbind outcome_bind]. unfold check_connection. rewrite Hs.
  cbn [mbind outcome_bind negb]. unfold track_disconnection.
  cbn [reachable_script clock speedtest_script].
  rewrite (await_connection_fails _ _ _ _ Hf).
  eexists. split; [reflexivity |]. cbn. rewrite H2. tauto.
Qed.

Lemma outage_turn_witness :
  exists self',
    iteration (init (hours 10), outage_world) =
      Ok (self', World (hours 10 + Z.of_N 0
                        + polling_time (repeat (usec 2, false) 6) + Z.of_N 0)
                       [] (speedtest_script outage_world)) /\
    speeds self' = speeds (init (hours 10)) /\
    speed_extremes self' = speed_extremes (init (hours 10)) /\
    disconnections self' =
      disconnections (init (hours 10)) ++
        [Disconnection (hours 10 + Z.of_N 0)
           (hours 10 + Z.of_N 0 + polling_time (repeat (usec 2, false) 6)
            + Z.of_N 0)
           (hours 10 + Z.of_N 0 + polling_time (repeat (usec 2, false) 6)
            + Z.of_N 0 - (hours 10 + Z.of_N 0))].
Proof.
  apply (outage_turn (init (hours 10)) outage_world 0%N 0%N
           (repeat (usec 2, false) 6) []).
  - reflexivity.
  - repeat constructor.
Defined.

(** X16. A turn of the loop that finds the connection up always returns,
    after the probe, the speed test and a minute of sleep, and leaves the
    disconnection log alone.  If the test throws, the sample log and the
    extremes are as before.  If it measures, the extremes are updated with
    the clock after the test, and the measurement is appended to the log,
    stamped with the time at which the turn began, exactly when both
    speeds are different from zero. *)
Theorem speed_test_turn (self : WiFiMonitor) (w : world) (cdt dt : N)
    (crest : list (N * bool)) (r : option (Q * Q))
    (rest : list (N * option (Q * Q))) :
  reachable_script w = (cdt, true) :: crest ->
  speedtest_script w = (dt, r) :: rest ->
  let started := clock w in
  let tested := clock w + Z.of_N cdt + Z.of_N dt in
  exists self',
    iteration (self, w) = Ok (self', World (tested + seconds 60) crest rest) /\
    disconnections self' = disconnections self /\
    match r with
    | None =>
        speeds self' = speeds self /\ speed_extremes self' = speed_extremes self
    | Some (down_bps, up_bps) =>
        let d := (down_bps / 1000000)%Q in
        let u := (up_bps / 1000000)%Q in
        speed_extremes self' =
          speed_extremes (update_speed_extremes self tested d u) /\
        (~ (d == 0)%Q /\ ~ (u == 0)%Q ->
         speeds self' = speeds self ++ [Sample started (hour_of started) d u]) /\
        ((d == 0)%Q \/ (u == 0)%Q -> speeds self' = speeds self)
    end.
Proof.
  intros Hc Ht. cbn zeta. unfold iteration.
  destruct (roll_hour_returns self (clock w)) as (self1 & -> & H1 & H2 & H3).
  cbn [mbind outcome_bind]. unfold check_connection. rewrite Hc.
  cbn [mbind outcome_bind negb]. unfold measure_speed.
  cbn [reachable_script clock speedtest_script]. rewrite Ht.
  destruct r as [[down_bps up_bps]|]; cbn [mbind outcome_bind].
  - eexists. split; [reflexivity |].
    destruct (truthy (Some (down_bps / 1000000)%Q) &&
              truthy (Some (up_bps / 1000000)%Q)) eqn:E;
      cbn [disconnections speeds speed_extremes set_speeds update_speed_extremes
           set_speed_extremes].
    + split; [exact H2 |].
      split; [apply (update_speed_extremes_reads_extremes self1 self), H3 |].
      split; [intros _; now rewrite H1 |].
      intros Hz. rewrite (truthy_zero _ _ Hz) in E. discriminate.
    + split; [exact H2 |].
      split; [apply (update_speed_extremes_reads_extremes self1 self), H3 |].
      split; [|intros _; exact H1].
      intros [Hd Hu]. cbn in E. apply andb_false_iff in E as [E | E];
        apply negb_false_iff, Qeq_bool_iff in E; tauto.
  - eexists. split; [reflexivity |]. cbn [truthy andb]. tauto.
Qed.

Lemma speed_test_turn_witness :
  exists self',
    iteration (init (hours 10), zero_download_world) =
      Ok (self', World (hours 10 + Z.of_N 0 + Z.of_N (usec 10) + seconds 60)
                       [] []) /\
    disconnections self' = disconnections (init (hours 10)) /\
    speed_extremes self' =
      speed_extremes
        (update_speed_extremes (init (hours 10))
           (hours 10 + Z.of_N 0 + Z.of_N (usec 10))
           (0 / 1000000) (5000000 / 1000000)) /\
    (~ (0 / 1000000 == 0)%Q /\ ~ (5000000 / 1000000 == 0)%Q ->
     speeds self' =
       speeds (init (hours 10)) ++
         [Sample (hours 10) (hour_of (hours 10))
                 (0 / 1000000) (5000000 / 1000000)]) /\
    ((0 / 1000000 == 0)%Q \/ (5000000 / 1000000 == 0)%Q ->
     speeds self' = speeds (init (hours 10))).
Proof.
  apply (speed_test_turn (init (hours 10)) zero_download_world 0%N (usec 10)
           [] (Some (0%Q, 5000000%Q)) []).
  - reflexivity.
  - reflexivity.
Defined.

(** ** Hourly averages and the extremes *)

Lemma Qlen_cons {A : Type} (x : A) (l : list A) : (Qlen (x :: l) == Qlen l + 1)%Q.
Proof.
  unfold Qlen. cbn [length]. rewrite Nat2Z.inj_succ, <- Z.add_1_r.
  rewrite inject_Z_plus. reflexivity.
Qed.

Lemma Qlen_pos {A : Type} (l : list A) : l <> [] -> (0 < Qlen l)%Q.
Proof.
  destruct l as [|x l]; [congruence |]. intros _. unfold Qlen.
  change 0%Q with (inject_Z 0). rewrite <- Zlt_Qlt. cbn [length]. lia.
Qed.

Lemma Qlen_nonneg {A : Type} (l : list A) : (0 <= Qlen l)%Q.
Proof.
  unfold Qlen. change 0%Q with (inject_Z 0). rewrite <- Zle_Qle. lia.
Qed.

Lemma Qsum_at_most (l : list Q) (M : Q) :
  Forall (fun x => (x <= M)%Q) l -> (Qsum l <= M * Qlen l)%Q.
Proof.
  induction 1 as [|x l Hx _ IH].
  - unfold Qsum, Qlen. cbn [fold_right length].
    change (inject_Z (Z.of_nat 0)) with 0%Q. lra.
  - cbn [Qsum fold_right]. fold (Qsum l). rewrite Qlen_cons. lra.
Qed.

Lemma Qsum_at_least (l : list Q) (m : Q) :
  Forall (fun x => (m <= x)%Q) l -> (m * Qlen l <= Qsum l)%Q.
Proof.
  induction 1 as [|x l Hx _ IH].
  - unfold Qsum, Qlen. cbn [fold_right length].
    change (inject_Z (Z.of_nat 0)) with 0%Q. lra.
  - cbn [Qsum fold_right]. fold (Qsum l). rewrite Qlen_cons. lra.
Qed.

(** A mean lies between any two bounds of the values. *)
Lemma mean_between {A : Type} (f : A -> Q) (l : list A) (lo hi : speedval) :
  l <> [] ->
  Forall (fun a => sv_le lo (Finite (f a)) /\ sv_le (Finite (f a)) hi) l ->
  sv_le lo (Finite (Qsum (map f l) / Qlen l)) /\
  sv_le (Finite (Qsum (map f l) / Qlen l)) hi.
Proof.
  intros Hne Hall. pose proof (Qlen_pos l Hne) as Hpos.
  rewrite <- (Qlen_map f l) in *.
  assert (Hne' : map f l <> []) by (destruct l; [congruence | discriminate]).
  split.
  - destruct lo as [m|]; cbn.
    + apply Qle_shift_div_l; [exact Hpos |]. apply Qsum_at_least.
      apply Forall_fmap. eapply Forall_impl; [exact Hall |].
      cbn. intros a [H _]. exact H.
    + destruct l as [|a l]; [congruence |].
      apply Forall_cons in Hall as [[H _] _]. exact H.
  - destruct hi as [M|]; cbn; [|exact I].
    apply Qle_shift_div_r; [exact Hpos |]. apply Qsum_at_most.
    apply Forall_fmap. eapply Forall_impl; [exact Hall |].
    cbn. intros a [_ H]. exact H.
Qed.

Lemma calculate_hourly_average_entries (self self' : WiFiMonitor) :
  entries_from_log self -> calculate_hourly_average self = Ok self' ->
  entries_from_log self'.
Proof.
  intros Hinv. rewrite calculate_hourly_average_spec. cbn zeta.
  destruct (filter _ (speeds self)) as [|x hs] eqn:E; intros [= <-];
    [exact Hinv |].
  intros h a. cbn [hourly_averages speeds set_hourly_averages].
  rewrite lookup_insert. case_decide.
  - intros [= <-]. exists (x :: hs). split; [|reflexivity].
    intros s Hs. rewrite <- E in Hs. apply list_elem_of_filter in Hs. tauto.
  - apply Hinv.
Qed.

Lemma iteration_entries (sw sw' : WiFiMonitor * world) :
  entries_from_log (fst sw) -> iteration sw = Ok sw' ->
  entries_from_log (fst sw').
Proof.
  destruct sw as [self w]. cbn [fst]. intros Hinv Hit.
  pose proof (iteration_speeds _ _ Hit) as (new & Hnew & _). cbn [fst] in Hnew.
  apply iteration_cases in Hit
    as (self1 & cdt & up & crest & _ & (Hs1 & _) & Hroll & H).
  assert (H1 : entries_from_log self1).
  { destruct Hroll as [[_ ->] | [_ (self0 & Hcalc & ->)]]; [exact Hinv |].
    apply (calculate_hourly_average_entries _ _ Hinv Hcalc). }
  assert (Hh : hourly_averages (fst sw') = hourly_averages self1).
  { cbn zeta in H. destruct up.
    - destruct H as (dt & [[down_bps up_bps]|] & rest & _ & ->); cbn [fst];
        [destruct (truthy _ && truthy _) |]; reflexivity.
    - destruct sw' as [self' w'].
      apply track_disconnection_spec in H as [-> _]. reflexivity. }
  intros h a Hl. rewrite Hh in Hl. destruct (H1 h a Hl) as (hs & Hsub & He).
  exists hs. split; [|exact He]. intros s Hs. rewrite Hnew.
  apply elem_of_app. left. rewrite <- Hs1. apply Hsub, Hs.
Qed.

Lemma reachable_entries (sw : WiFiMonitor * world) :
  reachable sw ->
  entries_from_log (fst sw) /\
  Forall (within_extremes (speed_extremes (fst sw))) (speeds (fst sw)).
Proof.
  induction 1 as [now w | [self w] sw' _ [IHe IHw] Hit
                 | self self' w _ [IHe IHw] Hfin].
  - split; [intros h a Hl; cbn in Hl; rewrite lookup_empty in Hl; discriminate
           | constructor].
  - split; [eapply iteration_entries; eassumption |].
    cbn [fst] in IHw.
    apply iteration_log in Hit as [_ [[-> ->] | (t & d & u & -> & Hlog)]];
      [exact IHw |].
    assert (Hold : Forall (within_extremes
                     (speed_extremes (update_speed_extremes self t d u)))
                     (speeds self)).
    { eapply Forall_impl; [exact IHw |].
      intros s. apply update_speed_extremes_widens. }
    destruct Hlog as [-> | (-> & _)]; [exact Hold |].
    apply Forall_app. split; [exact Hold |].
    constructor; [|constructor]. apply update_speed_extremes_covers.
  - cbn [fst] in *.
    split; [eapply calculate_hourly_average_entries; eassumption |].
    destruct (calculate_hourly_average_fields _ _ Hfin) as (-> & _ & _ & ->).
    exact IHw.
Qed.

(** X17. Every hourly average lies between the recorded extremes: the mean
    download of an entry is at most the maximum download and at least the
    minimum download, and the same for the mean upload. *)
Theorem hourly_averages_within_extremes (sw : WiFiMonitor * world) (h : Z)
    (a : hourly_average) :
  reachable sw -> hourly_averages (fst sw) !! h = Some a ->
  entry_within_extremes (speed_extremes (fst sw)) a.
Proof.
  intros Hr Hl. destruct (reachable_entries sw Hr) as [He Hw].
  destruct (He h a Hl) as (hs & Hsub & Hentry).
  destruct hs as [|x hs]; [discriminate |].
  injection Hentry as <-. unfold entry_within_extremes.
  cbn [avg_download avg_upload].
  assert (Hall : Forall (within_extremes (speed_extremes (fst sw))) (x :: hs)).
  { apply Forall_forall. intros s Hs.
    apply (proj1 (Forall_forall _ _) Hw), Hsub, Hs. }
  destruct (mean_between download (x :: hs)
              (speed (min_download (speed_extremes (fst sw))))
              (speed (max_download (speed_extremes (fst sw)))))
    as [Hd1 Hd2]; [discriminate | |].
  { eapply Forall_impl; [exact Hall |]. intros s (H1 & H2 & _). tauto. }
  destruct (mean_between upload (x :: hs)
              (speed (min_upload (speed_extremes (fst sw))))
              (speed (max_upload (speed_extremes (fst sw)))))
    as [Hu1 Hu2]; [discriminate | |].
  { eapply Forall_impl; [exact Hall |]. intros s (_ & _ & H3 & H4). tauto. }
  tauto.
Qed.

Lemma hourly_averages_within_extremes_witness :
  entry_within_extremes (speed_extremes (fst scenario_state))
    (HourlyAverage (130000000000000 # 2000000000000)
                   (25000000000000 # 2000000000000) 2).
Proof.
  apply (hourly_averages_within_extremes scenario_state 10).
  - apply scenario_state_reachable.
  - vm_compute. reflexivity.
Defined.

(** ** What the report shows *)

Lemma no_marker_in_lines {A : Type} (f : A -> list line) (l : list A) (x : line) :
  (forall a y, y ∈ f a -> is_marker y = false) ->
  x ∈ concat (map f l) -> is_marker x = false.
Proof.
  intros Hf Hx. apply list_elem_of_In, in_concat in Hx as (ys & Hys & Hx).
  apply in_map_iff in Hys as (a & <- & _).
  apply (Hf a), list_elem_of_In, Hx.
Qed.

Lemma disconnection_lines_no_marker (d : disconnection) (y : line) :
  y ∈ disconnection_lines d -> is_marker y = false.
Proof.
  unfold disconnection_lines. intros H.
  repeat (apply elem_of_cons in H as [-> | H]; [reflexivity |]). inversion H.
Qed.

Lemma hourly_lines_no_marker (item : Z * hourly_average) (y : line) :
  y ∈ hourly_lines item -> is_marker y = false.
Proof.
  unfold hourly_lines. intros H.
  repeat (apply elem_of_cons in H as [-> | H]; [reflexivity |]). inversion H.
Qed.

Lemma analyze_patterns_none (sqrt : Q -> Q) (self : WiFiMonitor)
    (r : option patterns_t) :
  analyze_patterns sqrt self = Ok r -> (r = None <-> speeds self = []).
Proof.
  unfold analyze_patterns. destruct (speeds self) as [|s l].
  - intros [= <-]. tauto.
  - intros H. apply bind_Ok in H as (pd & _ & H).
    apply bind_Ok in H as (pu & _ & H). apply bind_Ok in H as (ld & _ & H).
    apply bind_Ok in H as (lu & _ & H). injection H as <-. split; discriminate.
Qed.

(** X18. The report has a pattern section exactly when the sample log is
    not empty, and the line "No disconnections recorded" exactly when no
    disconnection was recorded; it always states the total downtime and the
    number of disconnections. *)
Theorem report_sections (sqrt : Q -> Q) (self : WiFiMonitor) (now : datetime) :
  exists report,
    generate_report sqrt self now = Ok report /\
    (Title SpeedPatterns ∈ report <-> speeds self <> []) /\
    (NoDisconnectionsRecorded ∈ report <-> disconnections self = []) /\
    TotalDisconnectionTime (calculate_total_downtime self) ∈ report /\
    NumberOfDisconnections (length (disconnections self)) ∈ report.
Proof.
  unfold generate_report.
  destruct (analyze_patterns_returns sqrt self) as (patterns & Hp).
  rewrite Hp. cbn [mbind outcome_bind]. eexists. split; [reflexivity |].
  pose proof (analyze_patterns_none _ _ _ Hp) as Hnone.
  assert (Hh : forall x, is_marker x = true ->
            x ∉ concat (map hourly_lines (sorted_items (hourly_averages self)))).
  { intros x Hm Hx.
    apply (no_marker_in_lines _ _ _ hourly_lines_no_marker) in Hx. congruence. }
  assert (Hd : forall x ds, is_marker x = true ->
            x ∉ concat (map disconnection_lines ds)).
  { intros x ds Hm Hx.
    apply (no_marker_in_lines _ _ _ disconnection_lines_no_marker) in Hx.
    congruence. }
  pose proof (Hh (Title SpeedPatterns) eq_refl) as Hh1.
  pose proof (Hh NoDisconnectionsRecorded eq_refl) as Hh2.
  pose proof (fun ds => Hd (Title SpeedPatterns) ds eq_refl) as Hd1.
  pose proof (fun ds => Hd NoDisconnectionsRecorded ds eq_refl) as Hd2.
  repeat split.
  - intros Hin Hs. apply Hnone in Hs. subst patterns.
    destruct (disconnections self) as [|d ds];
      repeat (apply elem_of_app in Hin as [Hin | Hin]
              || apply elem_of_cons in Hin as [Hin | Hin]);
      try discriminate; try (now inversion Hin);
      first [now apply Hh1 | now apply (Hd1 (d :: ds)) | now apply (Hd1 ds)].
  - intros Hs. destruct patterns as [p|]; [|exfalso; apply Hs, Hnone; reflexivity].
    do 4 (apply elem_of_app; right). apply elem_of_app. left.
    apply list_elem_of_here.
  - intros Hin. destruct (disconnections self) as [|d ds]; [reflexivity |].
    exfalso. destruct patterns as [p|];
      repeat (apply elem_of_app in Hin as [Hin | Hin]
              || apply elem_of_cons in Hin as [Hin | Hin]);
      try discriminate; try (now inversion Hin);
      first [now apply Hh2 | now apply (Hd2 (d :: ds)) | now apply (Hd2 ds)].
  - intros ->. do 3 (apply elem_of_app; right). apply elem_of_app. left.
    apply list_elem_of_further, list_elem_of_here.
  - do 2 (apply elem_of_app; right). apply elem_of_app. left.
    apply list_elem_of_further, list_elem_of_here.
  - do 2 (apply elem_of_app; right). apply elem_of_app. left.
    do 2 apply list_elem_of_further. apply list_elem_of_here.
Qed.

(** ** Edges of the loop *)

(** X19. A run whose duration is zero or negative probes nothing: from the
    constructor's state it returns the empty report at once, whatever the
    fuel, and leaves the world as it was. *)
Theorem run_of_no_duration (sqrt : Q -> Q) (fuel : nat) (duration : timedelta)
    (now : datetime) (w : world) :
  duration <= 0 ->
  run sqrt fuel duration (init now, w) = Ok (empty_report (clock w), init now, w).
Proof.
  intros Hd. unfold run. cbn [snd].
  assert (Hloop : loop fuel (clock w + duration) (init now, w) = Ok (init now, w)).
  { destruct fuel; cbn [loop snd]; case_decide; (reflexivity || lia). }
  rewrite Hloop. cbn [mbind outcome_bind].
  unfold calculate_hourly_average. cbn [speeds init mbind outcome_bind].
  rewrite (generate_report_pristine sqrt (init now) (clock w)); [reflexivity |].
  repeat split.
Qed.

Lemma run_of_no_duration_witness :
  run sqrt_down 0 0 (init (hours 10), failing_world) =
  Ok (empty_report (clock failing_world), init (hours 10), failing_world).
Proof.
  apply (run_of_no_duration sqrt_down 0%nat 0 (hours 10) failing_world). lia.
Defined.

(** X20. A turn of the loop only widens the extremes: no maximum goes down
    and no minimum goes up. *)
Theorem extremes_only_widen (sw sw' : WiFiMonitor * world) :
  iteration sw = Ok sw' ->
  let e := speed_extremes (fst sw) in
  let e' := speed_extremes (fst sw') in
  sv_le (speed (max_download e)) (speed (max_download e')) /\
  sv_le (speed (min_download e')) (speed (min_download e)) /\
  sv_le (speed (max_upload e)) (speed (max_upload e')) /\
  sv_le (speed (min_upload e')) (speed (min_upload e)).
Proof.
  destruct sw as [self w]. intros Hit. cbn zeta. cbn [fst].
  apply iteration_log in Hit as [_ [[_ ->] | (t & d & u & -> & _)]].
  - repeat split; apply sv_le_refl.
  - unfold update_speed_extremes.
    cbn [speed_extremes set_speed_extremes max_download min_download
         max_upload min_upload].
    pose proof (raise_spec (max_download (speed_extremes self)) (t, d)) as (R1 & _).
    pose proof (lower_spec (min_download (speed_extremes self)) (t, d)) as (L1 & _).
    pose proof (raise_spec (max_upload (speed_extremes self)) (t, u)) as (R2 & _).
    pose proof (lower_spec (min_upload (speed_extremes self)) (t, u)) as (L2 & _).
    unfold raise, lower in *. cbn [fst snd] in *. tauto.
Qed.

Lemma extremes_only_widen_witness :
  let e := speed_extremes (fst (init (hours 10), zero_download_world)) in
  let e' := speed_extremes (fst after_zero_download) in
  sv_le (speed (max_download e)) (speed (max_download e')) /\
  sv_le (speed (min_download e')) (speed (min_download e)) /\
  sv_le (speed (max_upload e)) (speed (max_upload e')) /\
  sv_le (speed (min_upload e')) (speed (min_upload e)).
Proof.
  apply (extremes_only_widen (init (hours 10), zero_download_world)
           after_zero_download).
  vm_compute. reflexivity.
Defined.

(** ** The rows of the pattern analysis *)

(** X21. [hourly_patterns] has one row for each hour in which the log has a
    sample, and no other; the rows are in ascending order of the hours. *)
Theorem hourly_patterns_rows (sqrt : Q -> Q) (self : WiFiMonitor)
    (p : patterns_t) :
  analyze_patterns sqrt self = Ok (Some p) ->
  StronglySorted Z.lt (map fst (hourly_patterns p)) /\
  forall k, k ∈ map fst (hourly_patterns p) <->
            exists s, s ∈ speeds self /\ hour_of (timestamp s) = k.
Proof.
  unfold analyze_patterns. destruct (speeds self) as [|s l] eqn:El; [discriminate |].
  intros H.
  apply bind_Ok in H as (pd & _ & H). apply bind_Ok in H as (pu & _ & H).
  apply bind_Ok in H as (ld & _ & H). apply bind_Ok in H as (lu & _ & H).
  injection H as <-. cbn [hourly_patterns]. rewrite agg_keys.
  apply group_keys_spec.
Qed.

Lemma hourly_patterns_rows_witness :
  StronglySorted Z.lt (map fst (hourly_patterns lone_hour_patterns)) /\
  forall k, k ∈ map fst (hourly_patterns lone_hour_patterns) <->
            exists s, s ∈ speeds lone_hour_log /\ hour_of (timestamp s) = k.
Proof.
  apply (hourly_patterns_rows sqrt_down lone_hour_log).
  vm_compute. reflexivity.
Defined.

Lemma group_is_of_hour (l : list sample) (k : Z) :
  Forall sample_ok l -> group l k = of_hour k l.
Proof.
  unfold group, of_hour. induction 1 as [|s l Hs _ IH]; [reflexivity |].
  rewrite !filter_cons, IH. unfold sample_ok in Hs. rewrite Hs.
  destruct (decide (hour_of (timestamp s) = k)); reflexivity.
Qed.

Lemma loop_samples (fuel : nat) (end_time : datetime)
    (sw sw' : WiFiMonitor * world) :
  Forall sample_ok (speeds (fst sw)) -> loop fuel end_time sw = Ok sw' ->
  Forall sample_ok (speeds (fst sw')).
Proof.
  apply (loop_invariant (fun sw => Forall sample_ok (speeds (fst sw)))).
  intros s s' Hs Hit. apply iteration_speeds in Hit as (new & -> & Hnew).
  apply Forall_app. tauto.
Qed.

(** X22. At the end of a run the two summaries by hour cover the same
    hours with the same counts: each row of [hourly_patterns] has, under its
    hour, an entry in the hourly map whose number of samples is the size of
    the row's group, and each hour of the hourly map has a row. *)
Theorem hourly_map_agrees_with_patterns (sqrt : Q -> Q) (fuel : nat)
    (duration : timedelta) (now : datetime) (w w' : world)
    (report : list line) (self : WiFiMonitor) (p : patterns_t) :
  run sqrt fuel duration (init now, w) = Ok (report, self, w') ->
  analyze_patterns sqrt self = Ok (Some p) ->
  (forall k row, (k, row) ∈ hourly_patterns p ->
     exists a, hourly_averages self !! k = Some a /\
               samples a = length (group (speeds self) k)) /\
  (forall k a, hourly_averages self !! k = Some a ->
     k ∈ map fst (hourly_patterns p)).
Proof.
  intros Hrun Hp.
  assert (Hsum : summarises self /\ Forall sample_ok (speeds self)).
  { unfold run in Hrun. apply bind_Ok in Hrun as ([self1 w1] & Hloop & Hrun).
    apply bind_Ok in Hrun as (self2 & Hfin & Hrun).
    apply bind_Ok in Hrun as (report' & _ & [= _ <- _]). split.
    - apply (loop_invariant (fun sw => past_hours_final (fst sw))
               iteration_past_hours) in Hloop.
      + eapply calculate_hourly_average_summarises; [exact Hloop | exact Hfin].
      + apply (reachable_past_hours (init now, w)), reach_init.
    - rewrite (proj1 (calculate_hourly_average_fields _ _ Hfin)).
      apply (loop_samples _ _ (init now, w) _ (List.Forall_nil _) Hloop). }
  destruct Hsum as [Hsum Hok].
  assert (Hrows : map fst (hourly_patterns p) = group_keys (speeds self)).
  { unfold analyze_patterns in Hp.
    destruct (speeds self) as [|s l] eqn:El; [discriminate |].
    apply bind_Ok in Hp as (pd & _ & Hp). apply bind_Ok in Hp as (pu & _ & Hp).
    apply bind_Ok in Hp as (ld & _ & Hp). apply bind_Ok in Hp as (lu & _ & Hp).
    injection Hp as <-. cbn [hourly_patterns]. apply agg_keys. }
  assert (Hgroup : forall k, k ∈ group_keys (speeds self) <->
                             of_hour k (speeds self) <> []).
  { intros k. rewrite (proj2 (group_keys_spec (speeds self)) k). split.
    - intros (s & Hs & Hh) E.
      assert (Hin : s ∈ of_hour k (speeds self)).
      { unfold of_hour. apply list_elem_of_filter. split; [|exact Hs].
        rewrite <- Hh. apply (proj1 (Forall_forall _ _) Hok s Hs). }
      rewrite E in Hin. inversion Hin.
    - intros Hne. destruct (of_hour k (speeds self)) as [|s hs] eqn:E;
        [congruence |].
      assert (Hin : s ∈ of_hour k (speeds self))
        by (rewrite E; apply list_elem_of_here).
      unfold of_hour in Hin. apply list_elem_of_filter in Hin as [Hh Hs].
      exists s. split; [exact Hs |].
      rewrite <- Hh. symmetry. apply (proj1 (Forall_forall _ _) Hok s Hs). }
  split.
  - intros k row Hrow.
    assert (Hk : k ∈ group_keys (speeds self)).
    { rewrite <- Hrows. change k with (fst (k, row)).
      apply list_elem_of_fmap_2, Hrow. }
    apply Hgroup in Hk. rewrite (Hsum k), (group_is_of_hour _ _ Hok).
    destruct (of_hour k (speeds self)) as [|x hs]; [congruence |].
    eexists. split; reflexivity.
  - intros k a Hl. rewrite Hrows. apply Hgroup.
    rewrite (Hsum k) in Hl. intros E. rewrite E in Hl. discriminate.
Qed.

Lemma hourly_map_agrees_with_patterns_witness :
  (forall k row, (k, row) ∈ hourly_patterns scenario_patterns ->
     exists a, hourly_averages (snd (fst scenario_final)) !! k = Some a /\
               samples a = length (group (speeds (snd (fst scenario_final))) k)) /\
  (forall k a, hourly_averages (snd (fst scenario_final)) !! k = Some a ->
     k ∈ map fst (hourly_patterns scenario_patterns)).
Proof.
  apply (hourly_map_agrees_with_patterns sqrt_down 3%nat (seconds 180)
           scenario_start scenario_world (snd scenario_final)
           (fst (fst scenario_final)) (snd (fst scenario_final))
           scenario_patterns).
  - vm_compute. reflexivity.
  - vm_compute. reflexivity.
Defined.

(** * The report of an empty dataset *)

(** While the log is empty nothing has been written to the hourly map. *)
Lemma reachable_empty_log (sw : WiFiMonitor * world) :
  reachable sw -> speeds (fst sw) = [] -> hourly_averages (fst sw) = ∅.
Proof.
  intros Hr Hs. destruct (reachable_past_hours sw Hr) as [Hpast Hcur].
  apply map_eq. intros h. rewrite lookup_empty.
  destruct (decide (h = current_hour (fst sw))) as [-> | Hne].
  - apply Hcur. unfold of_hour. now rewrite Hs.
  - rewrite (Hpast h Hne). unfold of_hour. now rewrite Hs.
Qed.

Lemma generate_report_quiet (sqrt : Q -> Q) (self : WiFiMonitor)
    (now : datetime) :
  speeds self = [] -> disconnections self = [] -> hourly_averages self = ∅ ->
  generate_report sqrt self now = Ok (quiet_report (speed_extremes self) now).
Proof.
  intros Hs Hd Hh.
  unfold generate_report, analyze_patterns, calculate_total_downtime.
  rewrite Hs, Hd, Hh. reflexivity.
Qed.

(** C5, as the code has it.  [analyze_patterns] on an empty log returns
    [None].  The report is built without raising in every state.  In every
    reachable state with an empty log and no disconnection it has no pattern
    section and no hourly entry, the line "No disconnections recorded", a
    downtime of zero, and the extremes of the monitor.  Those are the
    sentinels, 0 and infinity with no timestamp, when no speed test has
    returned a measurement: in the constructor's state, and after a whole
    run in which every speed test throws while connectivity stays up (given
    a minute of fuel and of script for every minute of its duration). *)
Theorem empty_dataset_is_reported :
  (forall sqrt self, speeds self = [] -> analyze_patterns sqrt self = Ok None) /\
  (forall sqrt self now, exists report, generate_report sqrt self now = Ok report) /\
  (forall sqrt now t, generate_report sqrt (init now) t = Ok (empty_report t)) /\
  (forall sqrt fuel duration now w,
     total_data_loss w ->
     duration <= seconds 60 * Z.of_nat fuel ->
     (fuel <= length (reachable_script w))%nat ->
     (fuel <= length (speedtest_script w))%nat ->
     exists self' w',
       run sqrt fuel duration (init now, w)
         = Ok (empty_report (clock w'), self', w') /\
       pristine self') /\
  (forall sqrt sw now,
     reachable sw -> speeds (fst sw) = [] -> disconnections (fst sw) = [] ->
     generate_report sqrt (fst sw) now =
       Ok (quiet_report (speed_extremes (fst sw)) now)) /\
  (forall t, quiet_report initial_extremes t = empty_report t).
Proof.
  split; [|split; [|split; [|split; [|split]]]].
  - intros sqrt self H. unfold analyze_patterns. now rewrite H.
  - intros sqrt self now. apply generate_report_returns.
  - intros sqrt now t. apply generate_report_pristine. repeat split.
  - intros sqrt fuel duration now w Hloss Hdur Hc Ht.
    assert (Hp0 : pristine (init now)) by (repeat split).
    destruct (loop_data_loss_returns fuel (clock w + duration) (init now, w))
      as ([self1 w1] & Hloop); cbn [fst snd]; try assumption; [lia |].
    assert (Hp : pristine self1).
    { apply (loop_invariant _ iteration_data_loss) in Hloop;
        [apply Hloop | split; assumption]. }
    exists self1, w1. unfold run. cbn [snd]. rewrite Hloop.
    cbn [mbind outcome_bind].
    unfold calculate_hourly_average. rewrite (proj1 Hp).
    cbn [mbind outcome_bind].
    rewrite (generate_report_pristine _ _ _ Hp). cbn [mbind outcome_bind].
    split; [reflexivity | exact Hp].
  - intros sqrt sw now Hr Hs Hd.
    apply generate_report_quiet; [exact Hs | exact Hd |].
    apply reachable_empty_log; assumption.
  - reflexivity.
Qed.

(** C5, at three minutes of failing speed tests. *)
Lemma empty_dataset_is_reported_witness :
  exists self' w',
    run sqrt_down 3 (seconds 180) (init (hours 10), failing_world)
      = Ok (empty_report (clock w'), self', w') /\
    pristine self'.
Proof.
  apply (proj1 (proj2 (proj2 (proj2 empty_dataset_is_reported)))
           sqrt_down 3%nat (seconds 180) (hours 10) failing_world).
  - split; repeat constructor.
  - vm_compute. discriminate.
  - cbn. lia.
  - cbn. lia.
Defined.

(** C5 fails as stated.  After one speed test that measures a download of
    0, the log is empty and there is no disconnection, yet the report does
    not show the sentinels: its minimum download is 0, with the time of the
    test, and its maximum and minimum upload are the measured 5. *)
Lemma zero_measurement_report_has_no_sentinel :
  reachable after_zero_download /\
  speeds (fst after_zero_download) = [] /\
  disconnections (fst after_zero_download) = [] /\
  generate_report sqrt_down (fst after_zero_download) (hours 11) =
    Ok (quiet_report (speed_extremes (fst after_zero_download)) (hours 11)) /\
  ExtremeLine MinimumDownload (Finite (0 / 1000000))
              (Some (hours 10 + seconds 10))
    ∈ quiet_report (speed_extremes (fst after_zero_download)) (hours 11) /\
  quiet_report (speed_extremes (fst after_zero_download)) (hours 11)
    <> empty_report (hours 11).
Proof.
  split; [apply after_zero_download_reachable |].
  split; [reflexivity |]. split; [reflexivity |].
  split; [run_model |].
  split; [|discriminate].
  do 4 apply list_elem_of_further. apply list_elem_of_here.
Qed.
